(** * Anaconda worker supervision: a shallow embedding of [anaconda.py]

    The plugin keeps one [Worker] per editor window.  A Worker owns a
    backend subprocess, the port that subprocess listens on and a client
    connected to it.  This development embeds the [Worker] class (its
    constructor, [restart], [stop], [autocomplete], [run_linter], [port],
    [lookup], [generate_project_name] and [start_worker]) as functions in a
    state-and-exception monad over an explicit world, and states the
    properties of the specification against that embedding. *)

From Stdlib Require Import ZArith Ascii DecimalString Lia.
From stdpp Require Import base option list gmap strings.


(** ** Python strings *)

(** [s.split(sep)] for a one-character separator: every occurrence of
    [sep] cuts, so the result is never empty. *)
Fixpoint split (sep : ascii) (s : string) : list string :=
  match s with
  | EmptyString => [""]
  | String c r =>
      if Ascii.eqb c sep then "" :: split sep r
      else match split sep r with
           | hd :: tl => String c hd :: tl
           | [] => [String c ""]
           end
  end.

(** [s.rsplit(sep, 1)]: cut at the last occurrence of [sep] only.  One
    piece when [sep] does not occur, two otherwise. *)
Fixpoint rsplit1 (sep : ascii) (s : string) : list string :=
  match s with
  | EmptyString => [""]
  | String c r =>
      match rsplit1 sep r with
      | [tl] => if Ascii.eqb c sep then [""; tl] else [String c tl]
      | hd :: rest => String c hd :: rest
      | [] => [String c ""]
      end
  end.

(** [str(n)] on a Python integer. *)
Definition str (z : Z) : string := NilZero.string_of_int (Z.to_int z).

(** [sep in s] *)
Fixpoint occurs (sep : ascii) (s : string) : bool :=
  match s with
  | EmptyString => false
  | String c r => Ascii.eqb c sep || occurs sep r
  end.

(** ** Python values and exceptions *)

(** The values a decoded backend response is made of. *)
#[warnings="-register-all"]
Inductive pyval :=
| VNone
| VBool (b : bool)
| VInt (z : Z)
| VStr (s : string)
| VList (l : list pyval)
| VDict (d : gmap string pyval).

(** Truth value of an object, as [if result and ...] tests it. *)
Definition truthy (v : pyval) : bool :=
  match v with
  | VNone => false
  | VBool b => b
  | VInt z => negb (Z.eqb z 0)
  | VStr s => negb (String.eqb s "")
  | VList l => match l with [] => false | _ => true end
  | VDict d => negb (Nat.eqb (size d) 0)
  end.

(** [v is True]: identity with the [True] singleton. *)
Definition is_True (v : pyval) : bool :=
  match v with
  | VBool true => true
  | _ => false
  end.

Inductive exn :=
| IndexError
| KeyError
| TypeError
| AttributeError
| OSError
| ChannelError.

(** Outcome of a pure Python expression that may raise. *)
Inductive result (A : Type) :=
| Ok (a : A)
| Err (e : exn).
Arguments Ok {A} a.
Arguments Err {A} e.

(** [l[i]] on a Python list. *)
Definition index {A} (l : list A) (i : nat) : result A :=
  match l !! i with
  | Some x => Ok x
  | None => Err IndexError
  end.

(** [v[key]] with a string key. *)
Definition subscript (v : pyval) (key : string) : result pyval :=
  match v with
  | VDict d =>
      match d !! key with
      | Some x => Ok x
      | None => Err KeyError
      end
  | _ => Err TypeError
  end.

(** ** The editor objects the plugin reads *)

(** What [get_settings] consults on a view. *)
Record Buffer := {
  text : string;
  file_name : option string;
  settings : gmap string string
}.

Record Window := {
  window_id : Z;
  project_file_name : option string;
  folders : list string;
  active_view : Buffer
}.

Record View := {
  buffer : Buffer;
  window : Window
}.

(** Modelled from the spec: [anaconda.utils.get_settings] is not part of
    the file under study.  The specification gives it as
    [getSetting(activeViewContext, key, default) -> value]: the value
    configured under [key], the default when there is none. *)
Definition get_settings (b : Buffer) (key default : string) : string :=
  match settings b !! key with
  | Some value => value
  | None => default
  end.

(** ** Processes, channels and the world *)

(** The handle [subprocess.Popen] returns. *)
Record Popen := { pid : nat }.

(** Keyword arguments of the [Popen] call.  [startupinfo] holds the
    [dwFlags] of the [STARTUPINFO] object when one is passed. *)
Record popen_kwargs := {
  cwd : string;
  bufsize : Z;
  startupinfo : option Z
}.

Definition STARTF_USESHOWWINDOW : Z := 1.

(** Modelled from the spec: [anaconda.anaconda_client.Client] is not part
    of the file under study.  The specification's Request Channel is bound
    to a host and a port, answers [request(operation, payload)] with a
    Response or fails, and can be closed. *)
Record Client := {
  host : string;
  cport : Z
}.

(** What the backend does with the next request: answer with a decoded
    value ([VNone] for an absent response) or fail at channel level. *)
Inductive reply :=
| Reply (v : pyval)
| Fault (e : exn).

(** An instance attribute is either unset or bound to a value. *)
Inductive attr (T : Type) :=
| Unset
| Bound (v : T).
Arguments Unset {T}.
Arguments Bound {T} v.

(** A [Worker] object.  [proccess] is the attribute the constructor and
    [restart] assign; [process] is the one [stop] assigns.  [port] is the
    instance attribute [start_worker] binds on top of the static method
    of the same name. *)
Record Worker := {
  view : View;
  client : option Client;
  proccess : option Popen;
  port : attr Z;
  process : attr (option Popen)
}.

Definition set_client (c : option Client) (o : Worker) : Worker :=
  {| view := view o; client := c; proccess := proccess o;
     port := port o; process := process o |}.

Definition set_proccess (p : option Popen) (o : Worker) : Worker :=
  {| view := view o; client := client o; proccess := p;
     port := port o; process := process o |}.

Definition set_port (p : Z) (o : Worker) : Worker :=
  {| view := view o; client := client o; proccess := proccess o;
     port := Bound p; process := process o |}.

Definition set_process (p : option Popen) (o : Worker) : Worker :=
  {| view := view o; client := client o; proccess := proccess o;
     port := port o; process := Bound p |}.

(** The attributes [__init__] assigns before it calls [restart]. *)
Definition fresh (view : View) : Worker :=
  {| view := view; client := None; proccess := None;
     port := Unset; process := Unset |}.

(** Calls that leave the plugin, in the order they are made. *)
Inductive event :=
| Bind (p : Z)
| Spawn (child : Popen) (args : list string) (kwargs : popen_kwargs)
| Terminate (child : Popen)
| Connect (c : Client)
| Close (c : Client)
| Request (c : Client) (method : string) (data : gmap string pyval).

(** References to [Worker] objects. *)
Abbreviation addr := nat.

(** Everything the plugin can change or observe change:
    - [ephemeral]: the ports the operating system hands to the successive
      sockets bound to port 0;
    - [next_pid], [live]: the process table as far as the plugin's own
      children go;
    - [replies]: what the backend does with the successive requests;
    - [heap]: the [Worker] objects, by reference;
    - [WORKERS]: the module-level registry, window id to Worker;
    - [trace]: the outside calls made so far. *)
Record World := {
  ephemeral : list Z;
  next_pid : nat;
  live : gset nat;
  replies : list reply;
  heap : list Worker;
  WORKERS : gmap Z addr;
  trace : list event
}.

Definition set_ephemeral (l : list Z) (w : World) : World :=
  {| ephemeral := l; next_pid := next_pid w; live := live w;
     replies := replies w; heap := heap w; WORKERS := WORKERS w;
     trace := trace w |}.

Definition set_procs (n : nat) (l : gset nat) (w : World) : World :=
  {| ephemeral := ephemeral w; next_pid := n; live := l;
     replies := replies w; heap := heap w; WORKERS := WORKERS w;
     trace := trace w |}.

Definition set_replies (l : list reply) (w : World) : World :=
  {| ephemeral := ephemeral w; next_pid := next_pid w; live := live w;
     replies := l; heap := heap w; WORKERS := WORKERS w;
     trace := trace w |}.

Definition set_heap (h : list Worker) (w : World) : World :=
  {| ephemeral := ephemeral w; next_pid := next_pid w; live := live w;
     replies := replies w; heap := h; WORKERS := WORKERS w;
     trace := trace w |}.

Definition set_WORKERS (m : gmap Z addr) (w : World) : World :=
  {| ephemeral := ephemeral w; next_pid := next_pid w; live := live w;
     replies := replies w; heap := heap w; WORKERS := m;
     trace := trace w |}.

Definition log (e : event) (w : World) : World :=
  {| ephemeral := ephemeral w; next_pid := next_pid w; live := live w;
     replies := replies w; heap := heap w; WORKERS := WORKERS w;
     trace := trace w ++ [e] |}.

(** ** The monad of plugin code: state and exceptions *)

Inductive outcome (A : Type) :=
| Return (a : A) (w : World)
| Raise (e : exn) (w : World).
Arguments Return {A} a w.
Arguments Raise {A} e w.

Definition M (A : Type) : Type := World → outcome A.

#[global] Instance M_ret : MRet M := λ A a w, Return a w.

#[global] Instance M_bind : MBind M := λ A B f m w,
  match m w with
  | Return a w' => f a w'
  | Raise e w' => Raise e w'
  end.

Definition raise {A} (e : exn) : M A := λ w, Raise e w.

Definition lift {A} (r : result A) : M A :=
  match r with
  | Ok a => mret a
  | Err e => raise e
  end.

Definition gets {A} (f : World → A) : M A := λ w, Return (f w) w.

Definition modify (f : World → World) : M unit := λ w, Return tt (f w).

(** The world an outcome leaves behind. *)
Definition final {A} (r : outcome A) : World :=
  match r with
  | Return _ w => w
  | Raise _ w => w
  end.

(** *** Objects *)

(** [Worker.__new__]: a fresh object at the next free reference. *)
Definition alloc (o : Worker) : M addr := λ w,
  Return (length (heap w)) (set_heap (heap w ++ [o]) w).

Definition load (self : addr) : M Worker := λ w,
  match heap w !! self with
  | Some o => Return o w
  | None => Raise AttributeError w
  end.

(** [self.<attribute> = value] *)
Definition store (self : addr) (f : Worker → Worker) : M unit :=
  modify (λ w, set_heap (alter f self (heap w)) w).

(** [self.port], read as an integer. *)
Definition self_port (self : addr) : M Z :=
  o ← load self;
  match port o with
  | Bound p => mret p
  | Unset => raise TypeError
  end.

(** [self.client.<method>]: the attribute access fails on [None]. *)
Definition self_client (self : addr) : M Client :=
  o ← load self;
  match client o with
  | Some c => mret c
  | None => raise AttributeError
  end.

(** *** The outside *)

(** [Client(host, port)] *)
Definition Client_new (h : string) (p : Z) : M Client :=
  let c := {| host := h; cport := p |} in
  modify (log (Connect c));; mret c.

Definition Client_close (c : Client) : M unit :=
  modify (log (Close c)).

Definition Client_request (c : Client) (method : string)
    (data : gmap string pyval) : M pyval := λ w,
  let w1 := log (Request c method data) w in
  match replies w with
  | Reply v :: rest => Return v (set_replies rest w1)
  | Fault e :: rest => Raise e (set_replies rest w1)
  | [] => Raise ChannelError w1
  end.

(** [child.terminate()] *)
Definition Popen_terminate (child : Popen) : M unit :=
  modify (λ w, log (Terminate child)
                 (set_procs (next_pid w) (live w ∖ {[pid child]}) w)).

(** *** The editor's view API *)

(** [view.size()] *)
Definition size_ (b : Buffer) : nat := String.length (text b).

(** [view.substr(sublime.Region(a, b))] *)
Definition substr (b : Buffer) (region : nat * nat) : string :=
  String.substring (fst region) (snd region - fst region) (text b).

Definition newline : ascii := "010"%char.

(** [view.rowcol(point)]: zero-based row and column of a text point. *)
Fixpoint rowcol_from (s : string) (point row col : nat) : nat * nat :=
  match point, s with
  | S point', String c r =>
      if Ascii.eqb c newline then rowcol_from r point' (S row) 0
      else rowcol_from r point' row (S col)
  | _, _ => (row, col)
  end.

Definition rowcol (b : Buffer) (point : nat) : nat * nat :=
  rowcol_from (text b) point 0 0.

(** Modelled from the spec: [anaconda.decorators.executor] is not part of
    the file under study.  The specification has it dispatch the call away
    from the interactive thread and deliver the wrapped function's result;
    what reaches the caller is what the function body produces. *)
Definition executor {A} (body : M A) : M A := body.

(** ** The host the plugin runs on *)

(** What the plugin asks of the interpreter, the operating system and the
    editor without changing them: the module's [__file__], [os.getpid()],
    [sublime.platform()], the [os.path] and [pipes] functions of the
    platform, and whether a program name resolves to something that can be
    executed. *)
Class Host := {
  __file__ : string;
  os_getpid : Z;
  sublime_platform : string;
  os_path_dirname : string → string;
  os_path_abspath : string → string;
  os_path_join : string → string → string;
  pipes_quote : string → string;
  executable : string → bool
}.

(** [subprocess.Popen(args, **kwargs)] *)
Definition subprocess_Popen `{Host} (args : list string)
    (kwargs : popen_kwargs) : M Popen := λ w,
  match args with
  | prog :: _ =>
      if executable prog then
        let child := {| pid := next_pid w |} in
        Return child
          (log (Spawn child args kwargs)
             (set_procs (S (next_pid w)) (live w ∪ {[next_pid w]}) w))
      else Raise OSError w
  | [] => Raise IndexError w
  end.

(** ** The Worker class *)

Module Worker.

(** [Worker.port()]: bind a socket to port 0, read the port the system
    chose, close the socket. *)
Definition port : M Z := λ w,
  match ephemeral w with
  | p :: rest => Return p (log (Bind p) (set_ephemeral rest w))
  | [] => Raise OSError w
  end.

(** [Worker.generate_project_name(window)].  The subscripts [[1]] are kept
    as the list accesses they are: on a path without a slash [rsplit]
    returns one piece and the access raises. *)
Definition generate_project_name (window : Window) : result string :=
  match project_file_name window with
  | None =>
      match folders window with
      | first :: _ => index (rsplit1 "/" first) 1
      | [] => Ok ("anaconda-" +:+ str (window_id window))
      end
  | Some project_name =>
      match index (rsplit1 "/" project_name) 1 with
      | Ok base => index (split "." base) 0
      | Err e => Err e
      end
  end.

(** The loop [for extra_path in extra_paths.split(','): ...] of
    [start_worker], on the argument list built so far. *)
Definition extend_extra_paths (sub_args : list string)
    (extra_paths : string) : list string :=
  foldl (λ acc extra_path,
           if String.eqb extra_path "" then acc
           else acc ++ ["-e"; extra_path])
        sub_args (split "," extra_paths).

Section WithHost.
Context `{Host}.

(** [Worker.start_worker(self)] *)
Definition start_worker (self : addr) : M Popen :=
  p ← port;
  store self (set_port p);;
  o ← load self;
  let window := window (view o) in
  project_name ← lift (generate_project_name window);
  let interp :=
    get_settings (active_view window) "python_interpreter" "python" in
  let extra_paths := get_settings (active_view window) "extra_paths" "" in
  let kwargs :=
    {| cwd := os_path_dirname (os_path_abspath __file__);
       bufsize := -1;
       startupinfo :=
         if String.eqb sublime_platform "windows"
         then Some (Z.lor 0 STARTF_USESHOWWINDOW) else None |} in
  let WORKER_SCRIPT :=
    pipes_quote
      (os_path_join (os_path_dirname __file__)
         "anaconda_server/jsonserver.py") in
  self_port ← self_port self;
  let sub_args :=
    [interp; "-B"; WORKER_SCRIPT; "-p"; project_name; str self_port] in
  let sub_args := extend_extra_paths sub_args extra_paths in
  let sub_args := sub_args ++ [str os_getpid] in
  subprocess_Popen sub_args kwargs.

(** [Worker.restart(self)].  The [logger.info] line only reads
    [self.port]. *)
Definition restart (self : addr) : M unit :=
  child ← start_worker self;
  store self (set_proccess (Some child));;
  p ← self_port self;
  c ← Client_new "localhost" p;
  store self (set_client (Some c)).

(** [Worker.__init__(self, view)], after allocation of the object. *)
Definition __init__ (view : View) : M addr :=
  self ← alloc (fresh view);
  restart self;;
  mret self.

(** The statement under [with WORKERS_LOCK:] in [lookup]. *)
Definition create_and_register (view : View) : M unit :=
  self ← __init__ view;
  modify (λ w,
    set_WORKERS (<[window_id (window view) := self]> (WORKERS w)) w).

(** [Worker.lookup(view)], run by one thread with no other thread
    around: acquiring and releasing the lock changes nothing then. *)
Definition lookup (view : View) : M addr :=
  let window := window view in
  workers ← gets WORKERS;
  (if decide (workers !! window_id window = None)
   then create_and_register view
   else mret tt);;
  workers ← gets WORKERS;
  match workers !! window_id window with
  | Some self => mret self
  | None => raise KeyError
  end.

End WithHost.

(** [Worker.stop(self)] *)
Definition stop (self : addr) : M unit :=
  o ← load self;
  match client o with
  | Some c => Client_close c;; store self (set_client None)
  | None => mret tt
  end;;
  o ← load self;
  match proccess o with
  | Some child => Popen_terminate child;; store self (set_process None)
  | None => mret tt
  end.

(** [self.view.file_name() or ''] *)
Definition file_name_or_empty (b : Buffer) : string :=
  match file_name b with
  | Some name => if String.eqb name "" then "" else name
  | None => ""
  end.

(** [Worker.autocomplete(self, location)] *)
Definition autocomplete (self : addr) (location : nat) : M pyval :=
  executor (
    o ← load self;
    let '(current_line, current_column) :=
      rowcol (buffer (view o)) location in
    let data : gmap string pyval :=
      <["source" :=
          VStr (substr (buffer (view o)) (0, size_ (buffer (view o))))]>
      (<["line" := VInt (Z.of_nat current_line + 1)]>
      (<["offset" := VInt (Z.of_nat current_column)]>
      (<["filename" := VStr (file_name_or_empty (buffer (view o)))]> ∅))) in
    c ← self_client self;
    result ← Client_request c "autocomplete" data;
    if truthy result then
      success ← lift (subscript result "success");
      if is_True success then lift (subscript result "completions")
      else mret VNone
    else mret VNone).

(** [Worker.run_linter(self, text, settings, filename)] *)
Definition run_linter (self : addr) (text settings filename : pyval)
    : M pyval :=
  executor (
    let data : gmap string pyval :=
      <["code" := text]>
      (<["settings" := settings]>
      (<["filename" := filename]> ∅)) in
    c ← self_client self;
    result ← Client_request c "run_linter" data;
    if truthy result then
      success ← lift (subscript result "success");
      if is_True success then lift (subscript result "errors")
      else mret VNone
    else mret VNone).

End Worker.

(** ** Threads calling [lookup] *)

(** Where a thread stands inside [Worker.lookup]:
    - [AtCheck]: before [if window.window_id not in WORKERS];
    - [AtAcquire]: the test found no entry, before [with WORKERS_LOCK];
    - [AtBody]: holding the lock, before [WORKERS[...] = Worker(view)];
    - [AtReturn]: before [return WORKERS[window.window_id]];
    - [Done], [Failed]: returned a Worker, or left with an exception. *)
Inductive pc :=
| AtCheck
| AtAcquire
| AtBody
| AtReturn
| Done (self : addr)
| Failed (e : exn).

Record Config := {
  world : World;
  WORKERS_LOCK : option nat;
  threads : list (View * pc)
}.

Section Interleaving.
Context `{Host}.

(** One move of thread [t]; [None] when [t] cannot move (no such thread,
    finished, or waiting for the lock).  The statement under the lock runs
    as one move: the statements of other threads that could fall in
    between only read [WORKERS], which changes at the very end of it. *)
Definition step (t : nat) (c : Config) : option Config :=
  match threads c !! t with
  | Some (view, AtCheck) =>
      let next :=
        if decide (WORKERS (world c) !! window_id (window view) = None)
        then AtAcquire else AtReturn in
      Some {| world := world c; WORKERS_LOCK := WORKERS_LOCK c;
              threads := <[t := (view, next)]> (threads c) |}
  | Some (view, AtAcquire) =>
      match WORKERS_LOCK c with
      | None =>
          Some {| world := world c; WORKERS_LOCK := Some t;
                  threads := <[t := (view, AtBody)]> (threads c) |}
      | Some _ => None
      end
  | Some (view, AtBody) =>
      match Worker.create_and_register view (world c) with
      | Return _ w' =>
          Some {| world := w'; WORKERS_LOCK := None;
                  threads := <[t := (view, AtReturn)]> (threads c) |}
      | Raise e w' =>
          Some {| world := w'; WORKERS_LOCK := None;
                  threads := <[t := (view, Failed e)]> (threads c) |}
      end
  | Some (view, AtReturn) =>
      let next :=
        match WORKERS (world c) !! window_id (window view) with
        | Some self => Done self
        | None => Failed KeyError
        end in
      Some {| world := world c; WORKERS_LOCK := WORKERS_LOCK c;
              threads := <[t := (view, next)]> (threads c) |}
  | _ => None
  end.

(** The moves of a schedule, one after the other. *)
Fixpoint run (schedule : list nat) (c : Config) : option Config :=
  match schedule with
  | [] => Some c
  | t :: rest =>
      match step t c with
      | Some c' => run rest c'
      | None => None
      end
  end.

End Interleaving.

(** Threads that each enter [lookup] with their view. *)
Definition enter (w : World) (views : list View) : Config :=
  {| world := w; WORKERS_LOCK := None;
     threads := (λ v, (v, AtCheck)) <$> views |}.

(** Backend processes started so far. *)
Definition spawned (w : World) : list Popen :=
  omap (λ e, match e with Spawn child _ _ => Some child | _ => None end)
       (trace w).

(** Processes [terminate()] was called on so far, one entry per call. *)
Definition terminated (w : World) : list Popen :=
  omap (λ e, match e with Terminate child => Some child | _ => None end)
       (trace w).

(** ** A host to run examples on *)

(** POSIX-style path functions, for paths that are absolute and
    normalised already ([abspath] has nothing to do on those). *)
Fixpoint rstrip (c : ascii) (s : string) : string :=
  match s with
  | EmptyString => ""
  | String a r =>
      match rstrip c r with
      | EmptyString => if Ascii.eqb a c then "" else String a ""
      | r' => String a r'
      end
  end.

Definition posix_dirname (p : string) : string :=
  match rsplit1 "/" p with
  | [hd; _] =>
      let head := hd +:+ "/" in
      if String.eqb (rstrip "/" head) "" then head else rstrip "/" head
  | _ => ""
  end.

Definition ends_with_slash (a : string) : bool :=
  negb (String.eqb (rstrip "/" a) a).

Definition posix_join (a b : string) : string :=
  if String.prefix "/" b then b
  else if String.eqb a "" || ends_with_slash a then a +:+ b
  else a +:+ "/" +:+ b.

Definition shell_safe (c : ascii) : bool :=
  let n := nat_of_ascii c in
  (Nat.leb 48 n && Nat.leb n 57) || (Nat.leb 65 n && Nat.leb n 90)
  || (Nat.leb 97 n && Nat.leb n 122) || occurs c "_@%+=:,./-".

Fixpoint all_safe (s : string) : bool :=
  match s with
  | EmptyString => true
  | String c r => shell_safe c && all_safe r
  end.

Definition dquote : string := String (ascii_of_nat 34) "".

Fixpoint escape_quotes (s : string) : string :=
  match s with
  | EmptyString => ""
  | String c r =>
      if Ascii.eqb c "'"
      then "'" +:+ dquote +:+ "'" +:+ dquote +:+ "'" +:+ escape_quotes r
      else String c (escape_quotes r)
  end.

Definition shlex_quote (s : string) : string :=
  if String.eqb s "" then "''"
  else if all_safe s then s
  else "'" +:+ escape_quotes s +:+ "'".

Definition posix_host : Host :=
  {| __file__ := "/opt/st3/Packages/anaconda/anaconda.py";
     os_getpid := 4242;
     sublime_platform := "linux";
     os_path_dirname := posix_dirname;
     os_path_abspath := λ p, p;
     os_path_join := posix_join;
     pipes_quote := shlex_quote;
     executable := λ prog, String.eqb prog "python" |}.

(** ** The specification's vocabulary *)

(** [needle] occurs in [hay] as a contiguous piece. *)
Definition contains (needle hay : string) : Prop :=
  ∃ pre post, hay = pre +:+ needle +:+ post.

(** What precedes the first [sep] of [s]; all of [s] without one. *)
Fixpoint before_first (sep : ascii) (s : string) : string :=
  match s with
  | EmptyString => ""
  | String c r =>
      if Ascii.eqb c sep then "" else String c (before_first sep r)
  end.

(** What precedes the last [sep] of [s]; all of [s] without one. *)
Fixpoint before_last (sep : ascii) (s : string) : string :=
  match s with
  | EmptyString => ""
  | String c r =>
      if occurs sep r then String c (before_last sep r)
      else if Ascii.eqb c sep then "" else String c r
  end.

(** What follows the last [sep] of [s]; all of [s] without one. *)
Fixpoint after_last (sep : ascii) (s : string) : string :=
  match s with
  | EmptyString => ""
  | String c r =>
      if occurs sep r then after_last sep r
      else if Ascii.eqb c sep then r else String c r
  end.

(** Project-name derivation in the specification's words: the project
    file's base name with directory and extension stripped; else the first
    folder's base name; else a name containing the window's identity. *)
Definition spec_project_name (window : Window) (name : string) : Prop :=
  match project_file_name window, folders window with
  | Some path, _ => name = before_last "." (after_last "/" path)
  | None, first :: _ => name = after_last "/" first
  | None, [] => contains (str (window_id window)) name
  end.

(** Windows of the three kinds the derivation distinguishes. *)
Definition multi_dot_window : Window :=
  {| window_id := 1;
     project_file_name := Some "/home/u/my.proj.sublime-project";
     folders := [];
     active_view := {| text := ""; file_name := None; settings := ∅ |} |}.

Definition project_window : Window :=
  {| window_id := 2;
     project_file_name := Some "/home/u/proj.sublime-project";
     folders := ["/home/u/other"];
     active_view := {| text := ""; file_name := None; settings := ∅ |} |}.

Definition folder_window : Window :=
  {| window_id := 3;
     project_file_name := None;
     folders := ["/home/u/myrepo"; "/srv/www"];
     active_view := {| text := ""; file_name := None; settings := ∅ |} |}.

Definition bare_window : Window :=
  {| window_id := 7;
     project_file_name := None;
     folders := [];
     active_view := {| text := ""; file_name := None; settings := ∅ |} |}.

(** The events [stop] produces on an object. *)
Definition stop_events (o : Worker) : list event :=
  match client o with Some c => [Close c] | None => [] end
  ++ match proccess o with Some child => [Terminate child] | None => [] end.

(** The object [stop] leaves. *)
Definition stopped (o : Worker) : Worker :=
  {| view := view o; client := None; proccess := proccess o;
     port := port o;
     process := match proccess o with
                | Some _ => Bound None
                | None => process o
                end |}.

(** The command line of the specification's wire contract:
    [<interpreter> -B <backend-entry-path> -p <project-name> <port>
     [-e <extra-path>]* <parent-pid>]. *)
Definition command_line (interpreter entry project_name port : string)
    (extra : list string) (parent_pid : string) : list string :=
  [interpreter; "-B"; entry; "-p"; project_name; port]
  ++ (extra ≫= λ path, ["-e"; path])
  ++ [parent_pid].

Section Configured.
Context `{Host}.

(** The interpreter configured for a window. *)
Definition interpreter (window : Window) : string :=
  get_settings (active_view window) "python_interpreter" "python".

(** The non-empty entries of the window's comma-separated [extra_paths]. *)
Definition extra_paths (window : Window) : list string :=
  filter (λ path, path ≠ "")
         (split "," (get_settings (active_view window) "extra_paths" "")).

(** The backend's entry point, next to the plugin's own file. *)
Definition entry_path : string :=
  pipes_quote
    (os_path_join (os_path_dirname __file__) "anaconda_server/jsonserver.py").

(** What can keep [start_worker] from returning on a window: no port to
    hand out, a path without a slash to name the project after, or an
    interpreter that cannot be executed. *)
Definition cannot_start (w : World) (window : Window) : Prop :=
  ephemeral w = []
  ∨ Worker.generate_project_name window = Err IndexError
  ∨ executable (interpreter window) = false.

End Configured.

(** Every registered reference points to an allocated object. *)
Definition registry_valid (w : World) : Prop :=
  ∀ id self, WORKERS w !! id = Some self → self < length (heap w).

(** A response the high-level operations treat as a failure: none at
    all, or one whose success flag is not [True]. *)
Definition unsuccessful (response : pyval) : Prop :=
  response = VNone
  ∨ ∃ d flag, response = VDict d ∧ d !! "success" = Some flag
              ∧ flag ≠ VBool true.

(** Newline characters in a text. *)
Fixpoint newlines (s : string) : nat :=
  match s with
  | EmptyString => 0
  | String c r => (if Ascii.eqb c newline then 1 else 0) + newlines r
  end.

(** The text before a point. *)
Definition upto (point : nat) (s : string) : string :=
  String.substring 0 point s.

(** The line of a point, counting from 1: one more than the newlines in
    front of it. *)
Definition line_number (s : string) (point : nat) : Z :=
  Z.of_nat (newlines (upto point s)) + 1.

(** The column of a point, counting from 0: the characters between the
    start of its line and the point. *)
Definition column_offset (s : string) (point : nat) : Z :=
  Z.of_nat (String.length (after_last newline (upto point s))).

(** ** A session to run examples in *)

Definition demo_buffer : Buffer :=
  {| text := "import os" +:+ String newline "os.";
     file_name := None;
     settings := {["extra_paths" := "/srv/lib,,/opt/py"]} |}.

Definition demo_window : Window :=
  {| window_id := 2;
     project_file_name := Some "/home/u/proj.sublime-project";
     folders := [];
     active_view := demo_buffer |}.

Definition demo_view : View :=
  {| buffer := demo_buffer; window := demo_window |}.

(** The editor has just started: no Worker yet, three ports the system
    will hand out, a backend that will give the listed answers. *)
Definition boot (answers : list reply) : World :=
  {| ephemeral := [50001; 50002; 50003]%Z;
     next_pid := 100;
     live := ∅;
     replies := answers;
     heap := [];
     WORKERS := ∅;
     trace := [] |}.

(** The world after the first [lookup] of the demo view. *)
Definition running (answers : list reply) : World :=
  final (Worker.lookup (H := posix_host) demo_view (boot answers)).

(** The Worker that [lookup] built there. *)
Definition demo_worker : Worker :=
  {| view := demo_view;
     client := Some {| host := "localhost"; cport := 50001 |};
     proccess := Some {| pid := 100 |};
     port := Bound 50001%Z;
     process := Unset |}.

Definition completions_reply : pyval :=
  VDict (<["success" := VBool true]>
         (<["completions" := VList [VStr "path"; VStr "getcwd"]]> ∅)).


(** Clients [close()] was called on so far, one entry per call. *)
Definition closed (w : World) : list Client :=
  omap (λ e, match e with Close c => Some c | _ => None end) (trace w).

(** Two threads look the demo view up in a fresh editor.  Both test the
    registry before either takes the lock; thread 0 then builds, registers
    and returns, and thread 1 does the same after it. *)
Definition race_schedule : list nat := [0; 1; 0; 0; 0; 1; 1; 1].

(** ** Vocabulary for the further properties *)

(** [sep.join(pieces)] *)
Fixpoint join (sep : ascii) (pieces : list string) : string :=
  match pieces with
  | [] => ""
  | [piece] => piece
  | piece :: rest => piece +:+ String sep (join sep rest)
  end.

(** The path [generate_project_name] names the project after, when there
    is one: the project file, else the first folder. *)
Definition naming_path (window : Window) : option string :=
  match project_file_name window with
  | Some path => Some path
  | None => head (folders window)
  end.

(** A window whose only folder is written with a trailing slash, and one
    whose project file is a bare [.sublime-project]. *)
Definition slash_window : Window :=
  {| window_id := 4;
     project_file_name := None;
     folders := ["/home/u/myrepo" +:+ "/"];
     active_view := demo_buffer |}.

Definition dotfile_window : Window :=
  {| window_id := 5;
     project_file_name :=
       Some ("/home/u" +:+ String "/" ("." +:+ "sublime-project"));
     folders := [];
     active_view := demo_buffer |}.

Section Started.
Context `{Host}.

(** The keyword arguments [start_worker] passes to [Popen]: the plugin's
    own directory as working directory, full buffering, and on Windows a
    [STARTUPINFO] asking not to show a console window. *)
Definition spawn_kwargs : popen_kwargs :=
  {| cwd := os_path_dirname (os_path_abspath __file__);
     bufsize := -1;
     startupinfo :=
       if String.eqb sublime_platform "windows"
       then Some STARTF_USESHOWWINDOW else None |}.

(** The world once [start_worker] has allocated port [p] and bound it to
    the Worker. *)
Definition after_port (self : addr) (p : Z) (rest : list Z) (w : World)
    : World :=
  set_heap (alter (set_port p) self (heap w))
    (log (Bind p) (set_ephemeral rest w)).

(** The world once it has also spawned the backend. *)
Definition after_spawn (self : addr) (p : Z) (rest : list Z)
    (window : Window) (project_name : string) (w : World) : World :=
  log (Spawn {| pid := next_pid w |}
         (command_line (interpreter window) entry_path project_name (str p)
            (extra_paths window) (str os_getpid))
         spawn_kwargs)
    (set_procs (S (next_pid w)) (live w ∪ {[next_pid w]})
       (after_port self p rest w)).

End Started.

(** The Worker [restart] leaves: same view, a client on the new port, the
    new process, the new port; [process] as it was. *)
Definition restarted (o : Worker) (p : Z) (child : Popen) : Worker :=
  {| view := view o;
     client := Some {| host := "localhost"; cport := p |};
     proccess := Some child;
     port := Bound p;
     process := process o |}.

(** A view whose window asks for an interpreter the host cannot run. *)
Definition broken_view : View :=
  {| buffer := demo_buffer;
     window :=
       {| window_id := 2;
          project_file_name := Some "/home/u/proj.sublime-project";
          folders := [];
          active_view :=
            {| text := ""; file_name := None;
               settings := {["python_interpreter" := "python9"]} |} |} |}.

(** A Worker that was started on port 50001 before the interpreter
    setting went bad, and the session that holds it. *)
Definition stale_worker : Worker :=
  {| view := broken_view;
     client := Some {| host := "localhost"; cport := 50001 |};
     proccess := Some {| pid := 100 |};
     port := Bound 50001%Z;
     process := Unset |}.

Definition stale : World :=
  {| ephemeral := [50002%Z; 50003%Z];
     next_pid := 101;
     live := {[100]};
     replies := [];
     heap := [stale_worker];
     WORKERS := {[2%Z := 0]};
     trace := [] |}.

Section Created.
Context `{Host}.

(** The world [lookup] leaves when it builds the Worker of a view's
    window: the new object at the next free reference, started on port
    [p], and registered under the window id. *)
Definition created (view : View) (p : Z) (rest : list Z)
    (project_name : string) (w : World) : World :=
  let self := length (heap w) in
  let w0 := set_heap (heap w ++ [fresh view]) w in
  let w1 :=
    set_heap
      (<[self := restarted (fresh view) p {| pid := next_pid w |}]>
         (heap w0))
      (log (Connect {| host := "localhost"; cport := p |})
         (after_spawn self p rest (window view) project_name w0)) in
  set_WORKERS (<[window_id (window view) := self]> (WORKERS w1)) w1.

End Created.

(** Another file open in the demo window. *)
Definition other_view : View :=
  {| buffer := {| text := "print(1)"; file_name := Some "/home/u/b.py";
                  settings := ∅ |};
     window := demo_window |}.

(** Two worlds that agree on everything but the requests made and the
    answers still to come: same Worker objects, same registry, same ports
    to hand out, same processes started and terminated. *)
Definition undisturbed (w w' : World) : Prop :=
  heap w' = heap w ∧ WORKERS w' = WORKERS w
  ∧ ephemeral w' = ephemeral w ∧ next_pid w' = next_pid w
  ∧ live w' = live w ∧ spawned w' = spawned w
  ∧ terminated w' = terminated w.

(** Thread [t] is inside the statement under [with WORKERS_LOCK:]. *)
Definition in_body (c : Config) (t : nat) : Prop :=
  ∃ view, threads c !! t = Some (view, AtBody).

(** The lock is held exactly by the thread inside the locked statement. *)
Definition lock_discipline (c : Config) : Prop :=
  ∀ t, WORKERS_LOCK c = Some t ↔ in_body c t.

(** A thread that has left [lookup], by [return] or by an exception. *)
Definition finished (p : pc) : bool :=
  match p with
  | Done _ | Failed _ => true
  | _ => false
  end.

(** ** The completion listener *)

(** What [on_query_completions] hands back to the editor: a bare value,
    or the pair of the proposals and the completion flags. *)
Inductive completion_result :=
| Plain (proposals : pyval)
| Flagged (proposals : pyval) (completion_flags : Z).

(** What the listener asks of the editor: the two [sublime] flag
    constants, and whether a view shows a Python document. *)
Class Editor := {
  INHIBIT_WORD_COMPLETIONS : Z;
  INHIBIT_EXPLICIT_COMPLETIONS : Z;
  is_python : View → bool
}.

(** Modelled from the spec: [anaconda.decorators.only_python] is not part
    of the file under study.  The specification has it filter the events
    to Python-language documents: the handler runs for those and nothing
    is produced for the others. *)
Definition only_python `{Editor} (handler : View → M completion_result)
    (view : View) : M completion_result :=
  if is_python view then handler view else mret (Plain VNone).

Module AnacondaCompletionsListener.
Section WithHost.
Context `{Host} `{Editor}.

(** [AnacondaCompletionsListener.on_query_completions(self, view, prefix,
    locations)].  The call [Worker.lookup(view)] is evaluated before the
    argument [locations[0]]. *)
Definition on_query_completions (view : View) (prefix : string)
    (locations : list nat) : M completion_result :=
  only_python (λ view,
    worker ← Worker.lookup view;
    location ← lift (index locations 0);
    proposals ← Worker.autocomplete worker location;
    if truthy proposals then
      let completion_flags :=
        Z.lor INHIBIT_WORD_COMPLETIONS INHIBIT_EXPLICIT_COMPLETIONS in
      mret (Flagged proposals completion_flags)
    else mret (Plain proposals)) view.

End WithHost.
End AnacondaCompletionsListener.

(** The editor of the demo session: the documented values of the two
    flags, and Python documents only. *)
Definition demo_editor : Editor :=
  {| INHIBIT_WORD_COMPLETIONS := 8;
     INHIBIT_EXPLICIT_COMPLETIONS := 16;
     is_python := λ _, true |}.

Definition empty_completions_reply : pyval :=
  VDict (<["success" := VBool true]> (<["completions" := VList []]> ∅)).

(** A view in a window where nothing is configured, a Worker for it that
    has not been started, and a session holding just that Worker. *)
Definition plain_view : View :=
  {| buffer := demo_buffer; window := folder_window |}.

Definition idle : World :=
  {| ephemeral := [50010%Z];
     next_pid := 7;
     live := ∅;
     replies := [];
     heap := [fresh plain_view];
     WORKERS := ∅;
     trace := [] |}.

(** The running session after a lookup from a second window. *)
Definition two_windows : World :=
  final (Worker.lookup (H := posix_host) plain_view (running [])).

(** The race after three moves: both threads have tested the registry
    and thread 0 has taken the lock. *)
Definition mid_race : Config :=
  {| world := boot [];
     WORKERS_LOCK := Some 0;
     threads := [(demo_view, AtBody); (demo_view, AtAcquire)] |}.

(** * Properties *)

(** ** Splitting *)

Lemma append_cons c s t : String c s +:+ t = String c (s +:+ t).
Proof. reflexivity. Qed.

Lemma split_head sep s : ∃ tl, split sep s = before_first sep s :: tl.
Proof.
  induction s as [|c r [tl IH]]; simpl; [by eexists|].
  destruct (Ascii.eqb c sep); [by eexists|].
  rewrite IH. by eexists.
Qed.

Lemma rsplit1_absent sep s : occurs sep s = false → rsplit1 sep s = [s].
Proof.
  induction s as [|c r IH]; simpl; [done|].
  intros [Hc Hr]%orb_false_elim. by rewrite (IH Hr), Hc.
Qed.

Lemma rsplit1_present sep s :
  occurs sep s = true → ∃ hd, rsplit1 sep s = [hd; after_last sep s].
Proof.
  induction s as [|c r IH]; simpl; [done|].
  destruct (occurs sep r) eqn:Hr.
  - destruct (IH eq_refl) as [hd ->]. by eexists.
  - rewrite orb_false_r. intros ->. rewrite (rsplit1_absent _ _ Hr).
    by eexists.
Qed.

Lemma before_first_clean sep s : occurs sep (before_first sep s) = false.
Proof.
  induction s as [|c r IH]; simpl; [done|].
  destruct (Ascii.eqb c sep) eqn:Hc; simpl; [done|]. by rewrite Hc.
Qed.

Lemma before_first_cut sep s :
  occurs sep s = true →
  ∃ rest, s = before_first sep s +:+ String sep rest.
Proof.
  induction s as [|c r IH]; simpl; [done|].
  destruct (Ascii.eqb_spec c sep) as [->|Hne]; simpl.
  - by eexists.
  - intros Hr. destruct (IH Hr) as [rest Hrest]. exists rest.
    rewrite append_cons. by f_equal.
Qed.

Lemma after_last_clean sep s : occurs sep (after_last sep s) = false.
Proof.
  induction s as [|c r IH]; simpl; [done|].
  destruct (occurs sep r) eqn:Hr; [done|].
  destruct (Ascii.eqb c sep) eqn:Hc; [done|]. simpl. by rewrite Hc, Hr.
Qed.

Lemma after_last_cut sep s :
  occurs sep s = true →
  ∃ dir, s = dir +:+ String sep (after_last sep s).
Proof.
  induction s as [|c r IH]; simpl; [done|].
  destruct (occurs sep r) eqn:Hr.
  - intros _. destruct (IH eq_refl) as [dir Hdir]. exists (String c dir).
    rewrite append_cons. by f_equal.
  - rewrite orb_false_r. intros ->%Ascii.eqb_eq.
    rewrite Ascii.eqb_refl. by exists "".
Qed.

(** ** Project names *)

Lemma before_first_absent sep s :
  occurs sep s = false → before_first sep s = s.
Proof.
  induction s as [|c r IH]; simpl; [done|].
  intros [Hc Hr]%orb_false_elim. by rewrite Hc, (IH Hr).
Qed.

Lemma project_file_case window path :
  project_file_name window = Some path → occurs "/" path = true →
  Worker.generate_project_name window
  = Ok (before_first "." (after_last "/" path)).
Proof.
  unfold Worker.generate_project_name. intros -> Hslash.
  destruct (rsplit1_present _ _ Hslash) as [dir ->].
  destruct (split_head "." (after_last "/" path)) as [tl Htl].
  unfold index; simpl. by rewrite Htl.
Qed.

Lemma first_folder_case window first rest :
  project_file_name window = None → folders window = first :: rest →
  occurs "/" first = true →
  Worker.generate_project_name window = Ok (after_last "/" first).
Proof.
  unfold Worker.generate_project_name. intros -> -> Hslash.
  by destruct (rsplit1_present _ _ Hslash) as [dir ->].
Qed.

(** The name taken from a project file, without reference to how it is
    computed: the path is a directory, a slash and a base name free of
    slashes; the name is free of dots and is the base name itself or the
    base name up to a dot. *)
Lemma project_file_shape window path :
  project_file_name window = Some path → occurs "/" path = true →
  ∃ dir base name,
    path = dir +:+ String "/" base
    ∧ occurs "/" base = false
    ∧ Worker.generate_project_name window = Ok name
    ∧ occurs "." name = false
    ∧ (base = name ∨ ∃ rest, base = name +:+ String "." rest).
Proof.
  intros Hfile Hslash.
  destruct (after_last_cut _ _ Hslash) as [dir Hdir].
  exists dir, (after_last "/" path), (before_first "." (after_last "/" path)).
  split; [done|]. split; [apply after_last_clean|].
  split; [by apply project_file_case|]. split; [apply before_first_clean|].
  destruct (occurs "." (after_last "/" path)) eqn:Hdot.
  - right. by apply before_first_cut.
  - left. by rewrite before_first_absent.
Qed.

(** C5, as the specification words it, fails: for the project file
    [/home/u/my.proj.sublime-project] the base name with directory and
    extension stripped is [my.proj], and [generate_project_name] returns
    [my]. *)
Lemma generate_project_name_cuts_at_first_dot :
  Worker.generate_project_name multi_dot_window = Ok "my"
  ∧ ¬ spec_project_name multi_dot_window "my".
Proof.
  split; [reflexivity|].
  unfold spec_project_name; simpl. discriminate.
Qed.

(** C5, amended: for a window with a project file whose path contains a
    slash, [generate_project_name] returns what lies between the last slash
    of the path and the first dot after it; for a window with no project
    file and a first folder whose path contains a slash, what follows the
    last slash of that folder; for a window with neither, ["anaconda-"]
    followed by the window id in decimal, which contains the window's
    identity. *)
Theorem generate_project_name_derivation (window : Window) :
  (∀ path,
     project_file_name window = Some path → occurs "/" path = true →
     Worker.generate_project_name window
     = Ok (before_first "." (after_last "/" path)))
  ∧ (∀ first rest,
       project_file_name window = None → folders window = first :: rest →
       occurs "/" first = true →
       Worker.generate_project_name window = Ok (after_last "/" first))
  ∧ (project_file_name window = None → folders window = [] →
     Worker.generate_project_name window
     = Ok ("anaconda-" +:+ str (window_id window))
     ∧ contains (str (window_id window))
         ("anaconda-" +:+ str (window_id window))).
Proof.
  split; [|split; [|intros Hfile Hfolders; split]].
  - apply project_file_case.
  - apply first_folder_case.
  - unfold Worker.generate_project_name. by rewrite Hfile, Hfolders.
  - exists "anaconda-", "". f_equal.
    induction (str (window_id window)) as [|c s IH]; [done|].
    rewrite append_cons. by f_equal.
Qed.

(** The three cases on the specification's own examples. *)
Lemma generate_project_name_derivation_witness :
  Worker.generate_project_name project_window = Ok "proj"
  ∧ Worker.generate_project_name folder_window = Ok "myrepo"
  ∧ Worker.generate_project_name bare_window = Ok "anaconda-7".
Proof.
  split; [|split].
  - exact (proj1 (generate_project_name_derivation project_window)
             "/home/u/proj.sublime-project" eq_refl eq_refl).
  - exact (proj1 (proj2 (generate_project_name_derivation folder_window))
             "/home/u/myrepo" ["/srv/www"] eq_refl eq_refl eq_refl).
  - exact (proj1 (proj2 (proj2
             (generate_project_name_derivation bare_window))
             eq_refl eq_refl)).
Defined.

(** ** Running plugin code *)

Ltac run_m :=
  unfold executor, self_port, self_client, load, store, modify, gets,
    raise, lift, Client_new, Client_close, Popen_terminate;
  unfold mbind, M_bind, mret, M_ret; simpl.

Lemma stop_effect w self o :
  heap w !! self = Some o →
  ∃ w', Worker.stop self w = Return tt w'
    ∧ heap w' !! self = Some (stopped o)
    ∧ length (heap w') = length (heap w)
    ∧ trace w' = trace w ++ stop_events o
    ∧ live w' = match proccess o with
                | Some child => live w ∖ {[pid child]}
                | None => live w
                end
    ∧ ephemeral w' = ephemeral w
    ∧ next_pid w' = next_pid w
    ∧ replies w' = replies w
    ∧ WORKERS w' = WORKERS w.
Proof.
  intros Hself. unfold Worker.stop, stop_events, stopped. run_m.
  rewrite Hself.
  destruct o as [v [c|] [child|] pt pr]; simpl;
    rewrite ?list_lookup_alter_eq, ?Hself; simpl;
    rewrite ?list_lookup_alter_eq, ?Hself; simpl;
    eexists; (split; [reflexivity|]); simpl;
    rewrite ?list_lookup_alter_eq, ?list_lookup_alter_eq, ?Hself,
      ?length_alter, <- ?app_assoc, ?app_nil_r; simpl;
    repeat split; first [reflexivity | assumption].
Qed.

(** ** Starting a backend *)

Lemma extend_extra_paths_flat acc s :
  Worker.extend_extra_paths acc s
  = acc
    ++ (filter (λ path, path ≠ "") (split "," s) ≫= λ path, ["-e"; path]).
Proof.
  unfold Worker.extend_extra_paths.
  generalize (split "," s) as pieces. intros pieces. revert acc.
  induction pieces as [|piece pieces IH]; intros acc; simpl.
  - by rewrite app_nil_r.
  - rewrite IH, filter_cons.
    destruct (String.eqb_spec piece "") as [->|Hne].
    + by rewrite decide_False by (intros Hne; by apply Hne).
    + rewrite decide_True by done. simpl. by rewrite <- app_assoc.
Qed.

Lemma index_error {A} (l : list A) i e : index l i = Err e → e = IndexError.
Proof. unfold index. destruct (l !! i); congruence. Qed.

Lemma generate_project_name_error window e :
  Worker.generate_project_name window = Err e → e = IndexError.
Proof.
  unfold Worker.generate_project_name.
  destruct (project_file_name window) as [path|].
  - destruct (index (rsplit1 "/" path) 1) eqn:Hbase.
    + apply index_error.
    + intros [= <-]. by apply index_error in Hbase.
  - destruct (folders window); [done|]. apply index_error.
Qed.

Section WorkerProperties.
Context `{Host}.

Lemma start_worker_outcome w self o :
  heap w !! self = Some o →
  match Worker.start_worker self w with
  | Return child w' =>
      ∃ p project_name kwargs,
        ephemeral w = p :: ephemeral w'
        ∧ Worker.generate_project_name (window (view o)) = Ok project_name
        ∧ executable (interpreter (window (view o))) = true
        ∧ child = {| pid := next_pid w |}
        ∧ heap w' = alter (set_port p) self (heap w)
        ∧ next_pid w' = S (next_pid w)
        ∧ live w' = live w ∪ {[next_pid w]}
        ∧ trace w'
          = trace w
            ++ [Bind p;
                Spawn child
                  (command_line (interpreter (window (view o))) entry_path
                     project_name (str p) (extra_paths (window (view o)))
                     (str os_getpid))
                  kwargs]
        ∧ replies w' = replies w
        ∧ WORKERS w' = WORKERS w
  | Raise e w' =>
      cannot_start w (window (view o))
      ∧ (e = OSError ∨ e = IndexError)
      ∧ WORKERS w' = WORKERS w
      ∧ length (heap w') = length (heap w)
      ∧ spawned w' = spawned w
      ∧ live w' = live w
  end.
Proof.
  intros Hself. unfold Worker.start_worker, Worker.port, cannot_start.
  run_m.
  destruct (ephemeral w) as [|p rest] eqn:Hports; simpl.
  { repeat split; auto. }
  rewrite list_lookup_alter_eq, Hself. simpl.
  destruct (Worker.generate_project_name (window (view o)))
    as [project_name|e] eqn:Hname; simpl.
  2: { apply generate_project_name_error in Hname as ->.
       repeat split; auto using length_alter.
       unfold spawned; simpl. by rewrite omap_app, app_nil_r. }
  rewrite list_lookup_alter_eq, Hself. simpl.
  unfold subprocess_Popen. rewrite extend_extra_paths_flat. simpl.
  fold (interpreter (window (view o))).
  destruct (executable (interpreter (window (view o)))) eqn:Hexec.
  - eexists p, project_name, _. simpl.
    rewrite <- app_assoc. repeat split; reflexivity.
  - simpl. repeat split; auto using length_alter.
    unfold spawned; simpl. by rewrite omap_app, app_nil_r.
Qed.

Lemma restart_outcome w self o :
  heap w !! self = Some o →
  match Worker.restart self w with
  | Return _ w' =>
      ∃ p project_name kwargs,
        ephemeral w = p :: ephemeral w'
        ∧ Worker.generate_project_name (window (view o)) = Ok project_name
        ∧ executable (interpreter (window (view o))) = true
        ∧ heap w' !! self
          = Some {| view := view o;
                    client := Some {| host := "localhost"; cport := p |};
                    proccess := Some {| pid := next_pid w |};
                    port := Bound p;
                    process := process o |}
        ∧ length (heap w') = length (heap w)
        ∧ (∀ other, other ≠ self → heap w' !! other = heap w !! other)
        ∧ next_pid w' = S (next_pid w)
        ∧ live w' = live w ∪ {[next_pid w]}
        ∧ trace w'
          = trace w
            ++ [Bind p;
                Spawn {| pid := next_pid w |}
                  (command_line (interpreter (window (view o))) entry_path
                     project_name (str p) (extra_paths (window (view o)))
                     (str os_getpid))
                  kwargs;
                Connect {| host := "localhost"; cport := p |}]
        ∧ replies w' = replies w
        ∧ WORKERS w' = WORKERS w
  | Raise e w' =>
      cannot_start w (window (view o))
      ∧ (e = OSError ∨ e = IndexError)
      ∧ WORKERS w' = WORKERS w
      ∧ length (heap w') = length (heap w)
      ∧ spawned w' = spawned w
      ∧ live w' = live w
  end.
Proof.
  intros Hself. pose proof (start_worker_outcome w self o Hself) as Hstart.
  unfold Worker.restart. unfold mbind at 1, M_bind at 1.
  destruct (Worker.start_worker self w) as [child w1|e w1]; [|done].
  destruct Hstart as (p & name & kw & Hp & Hname & Hexec & -> & Hheap & Hpid
                      & Hlive & Htrace & Hreplies & Hreg).
  run_m. rewrite !list_lookup_alter_eq, Hheap. 
  rewrite list_lookup_alter_eq, Hself. simpl.
  exists p, name, kw. simpl.
  rewrite !list_lookup_alter_eq, !length_alter, Hself, Htrace,
    <- app_assoc.
  destruct o; simpl.
  repeat split; try done.
  intros other Hother. by rewrite !list_lookup_alter_ne.
Qed.

Lemma init_outcome w v :
  match Worker.__init__ v w with
  | Return self w' =>
      self = length (heap w)
      ∧ is_Some (heap w' !! self)
      ∧ length (heap w') = S (length (heap w))
      ∧ spawned w' = spawned w ++ [{| pid := next_pid w |}]
      ∧ {[next_pid w]} ⊆ live w'
      ∧ WORKERS w' = WORKERS w
  | Raise e w' =>
      cannot_start w (window v)
      ∧ (e = OSError ∨ e = IndexError)
      ∧ WORKERS w' = WORKERS w
      ∧ spawned w' = spawned w
  end.
Proof.
  pose proof (restart_outcome (set_heap (heap w ++ [fresh v]) w)
                (length (heap w)) (fresh v)) as Hrestart.
  simpl in Hrestart. specialize (Hrestart (list_lookup_middle _ _ _ _ eq_refl)).
  unfold Worker.__init__, alloc. unfold mbind at 1 2, M_bind at 1 2.
  destruct (Worker.restart _ _) as [[] w'|e w'].
  - destruct Hrestart as (p & name & kw & _ & _ & _ & Hobj & Hlen & _ & _
                          & Hlive & Htrace & _ & Hreg).
    run_m. rewrite Hobj, Hlen, length_app, Hreg. simpl.
    repeat split; [by eexists|lia| |rewrite Hlive; apply union_subseteq_r].
    unfold spawned. rewrite Htrace, omap_app. by simpl.
  - destruct Hrestart as (Hcannot & He & Hreg & _ & Hspawned & _).
    by repeat split.
Qed.

(** C10: [Worker.lookup(view)] never returns an absent result.  In a world
    whose registry holds allocated objects only, a call that returns leaves
    an entry for the view's window in the registry, returns exactly the
    reference stored there, and that reference is an allocated [Worker];
    the registry stays well-formed.  A call leaves by an exception only
    when the window had no entry and the new backend could not be
    started; the registry is then as it was. *)
Theorem lookup_returns_registered_worker v w :
  registry_valid w →
  match Worker.lookup v w with
  | Return self w' =>
      WORKERS w' !! window_id (window v) = Some self
      ∧ is_Some (heap w' !! self)
      ∧ registry_valid w'
  | Raise e w' =>
      WORKERS w !! window_id (window v) = None
      ∧ cannot_start w (window v)
      ∧ WORKERS w' = WORKERS w
  end.
Proof.
  intros Hvalid. unfold Worker.lookup, Worker.create_and_register, gets.
  unfold mbind at 1 2, M_bind at 1 2.
  destruct (decide (WORKERS w !! window_id (window v) = None)) as [Hnew|Hold].
  - pose proof (init_outcome w v) as Hinit.
    unfold mbind at 1 2, M_bind at 1 2.
    destruct (Worker.__init__ v w) as [self w'|e w'].
    + destruct Hinit as (-> & Hobj & Hlen & _ & _ & Hreg).
      run_m. rewrite lookup_insert_eq. simpl.
      split; [apply lookup_insert_eq|]. split; [done|].
      intros id self. simpl. rewrite Hreg, Hlen, lookup_insert.
      case_decide; [intros [= <-]; lia|].
      intros Hid%Hvalid. lia.
    + by destruct Hinit as (Hcannot & _ & Hreg & _).
  - run_m. destruct (WORKERS w !! window_id (window v)) as [self|] eqn:Hreg;
      [|done].
    simpl. split; [done|]. split; [|done].
    apply lookup_lt_is_Some. by eapply Hvalid.
Qed.

(** C7: the backend is spawned with the command line
    [<interpreter> -B <backend-entry-path> -p <project-name> <port>],
    then one [-e <extra-path>] pair per non-empty extra path, then the
    parent process id, in that order.  Whenever [start_worker] returns, the
    one process it spawned was given exactly these arguments, the port being
    the one just allocated. *)
Theorem start_worker_command_line self w o child w' :
  heap w !! self = Some o →
  Worker.start_worker self w = Return child w' →
  ∃ project_name p kwargs,
    Worker.generate_project_name (window (view o)) = Ok project_name
    ∧ ephemeral w = p :: ephemeral w'
    ∧ spawned w' = spawned w ++ [child]
    ∧ trace w'
      = trace w
        ++ [Bind p;
            Spawn child
              (command_line (interpreter (window (view o))) entry_path
                 project_name (str p) (extra_paths (window (view o)))
                 (str os_getpid))
              kwargs].
Proof.
  intros Hself Hrun. pose proof (start_worker_outcome w self o Hself) as Hout.
  rewrite Hrun in Hout.
  destruct Hout as (p & name & kw & Hp & Hname & _ & _ & _ & _ & _ & Htrace
                    & _).
  exists name, p, kw. repeat split; try done.
  unfold spawned. rewrite Htrace, omap_app. by simpl.
Qed.

(** [restart] returns whenever a backend can be started. *)
Lemma restart_returns w self o p rest project_name :
  heap w !! self = Some o →
  ephemeral w = p :: rest →
  Worker.generate_project_name (window (view o)) = Ok project_name →
  executable (interpreter (window (view o))) = true →
  ∃ w', Worker.restart self w = Return tt w'.
Proof.
  intros Hself Hports Hname Hexec.
  pose proof (restart_outcome w self o Hself) as Hout.
  destruct (Worker.restart self w) as [[] w'|e w']; [by eexists|].
  destruct Hout as ([Hnone|[Herr|Hno]] & _); congruence.
Qed.

(** C6: [stop()] followed by [restart()] leaves the Worker bound to the
    port that a call to the port allocator made during this very restart
    returned, whatever port it had before, with a client on that port and
    a newly spawned backend process that is alive. *)
Theorem stop_then_restart_allocates w self o p rest project_name :
  heap w !! self = Some o →
  ephemeral w = p :: rest →
  Worker.generate_project_name (window (view o)) = Ok project_name →
  executable (interpreter (window (view o))) = true →
  ∃ w' o' args kwargs,
    (Worker.stop self;; Worker.restart self) w = Return tt w'
    ∧ heap w' !! self = Some o'
    ∧ port o' = Bound p
    ∧ client o' = Some {| host := "localhost"; cport := p |}
    ∧ proccess o' = Some {| pid := next_pid w |}
    ∧ next_pid w ∈ live w'
    ∧ ephemeral w' = rest
    ∧ trace w'
      = trace w ++ stop_events o
        ++ [Bind p; Spawn {| pid := next_pid w |} args kwargs;
            Connect {| host := "localhost"; cport := p |}].
Proof.
  intros Hself Hports Hname Hexec.
  destruct (stop_effect w self o Hself)
    as (w1 & Hstop & Hself1 & _ & Htrace1 & _ & Hports1 & Hpid1 & _).
  unfold mbind, M_bind. rewrite Hstop.
  pose proof (restart_outcome w1 self (stopped o) Hself1) as Hout.
  destruct (restart_returns w1 self (stopped o) p rest project_name)
    as [w' Hrestart]; [done|congruence|done|done|].
  rewrite Hrestart in *.
  destruct Hout as (p' & name' & kw & Hp' & _ & _ & Hobj & _ & _ & _ & Hlive
                    & Htrace & _).
  assert (p' = p ∧ ephemeral w' = rest) as [-> Hrest] by
    (split; congruence).
  eexists w', _, _, kw. split; [done|]. split; [exact Hobj|]. simpl.
  rewrite Hpid1 in *. rewrite Htrace, Htrace1, <- app_assoc.
  repeat split; try done.
  rewrite Hlive. by apply elem_of_union_r, elem_of_singleton.
Qed.

(** After [stop], the attribute [proccess] still holds the handle;
    [process] is what was set to [None]. *)
Lemma stop_keeps_proccess w self o child :
  heap w !! self = Some o →
  proccess o = Some child →
  ∃ w' o', Worker.stop self w = Return tt w'
    ∧ heap w' !! self = Some o'
    ∧ proccess o' = Some child
    ∧ process o' = Bound None
    ∧ client o' = None.
Proof.
  intros Hself Hchild.
  destruct (stop_effect w self o Hself) as (w' & Hstop & Hself' & _).
  exists w', (stopped o). unfold stopped in *. rewrite Hchild in *.
  by repeat split.
Qed.

(** X21: a second [stop] calls [terminate] on the same handle again,
    for every Worker that holds a process. *)
Lemma stop_twice_outcome w self o child :
  heap w !! self = Some o →
  proccess o = Some child →
  ∃ w', (Worker.stop self;; Worker.stop self) w = Return tt w'
    ∧ terminated w' = terminated w ++ [child; child].
Proof.
  intros Hself Hchild.
  destruct (stop_effect w self o Hself)
    as (w1 & Hstop & Hself1 & _ & Htrace1 & _).
  destruct (stop_effect w1 self (stopped o) Hself1)
    as (w2 & Hstop2 & _ & _ & Htrace2 & _).
  exists w2. unfold mbind, M_bind. rewrite Hstop. split; [done|].
  unfold terminated. rewrite Htrace2, Htrace1.
  unfold stop_events, stopped. simpl. rewrite Hchild.
  rewrite !omap_app. simpl. rewrite <- app_assoc. f_equal.
  by destruct (client o).
Qed.

(** X22: [restart] on a Worker that holds a process neither terminates
    that process nor closes the client: nothing is torn down. *)
Lemma restart_tears_nothing_down w self o w' :
  heap w !! self = Some o →
  Worker.restart self w = Return tt w' →
  terminated w' = terminated w
  ∧ live w' = live w ∪ {[next_pid w]}
  ∧ spawned w' = spawned w ++ [{| pid := next_pid w |}].
Proof.
  intros Hself Hrun. pose proof (restart_outcome w self o Hself) as Hout.
  rewrite Hrun in Hout.
  destruct Hout as (p & name & kw & _ & _ & _ & _ & _ & _ & _ & Hlive
                    & Htrace & _).
  unfold terminated, spawned. rewrite Htrace, !omap_app. simpl.
  by rewrite app_nil_r.
Qed.

End WorkerProperties.

(** ** One thread alone *)

Section Solo.
Context `{Host}.

(** The thread model and the sequential [lookup] are the same code: a
    thread that runs alone ends where [lookup] ends, with the same
    result. *)
Lemma solo_thread_is_lookup v w :
  ∃ schedule,
    run schedule (enter w [v])
    = Some {| world := final (Worker.lookup v w);
              WORKERS_LOCK := None;
              threads :=
                [(v, match Worker.lookup v w with
                     | Return self _ => Done self
                     | Raise e _ => Failed e
                     end)] |}.
Proof.
  unfold Worker.lookup, gets, enter.
  unfold mbind at 1 2 4 5, M_bind at 1 2 4 5.
  destruct (decide (WORKERS w !! window_id (window v) = None)) as [Hnew|Hold].
  - unfold mbind, M_bind.
    destruct (Worker.create_and_register v w) as [[] w'|e w'] eqn:Hbody.
    + exists [0; 0; 0; 0]. unfold run, step. simpl.
      rewrite decide_True by done. simpl. rewrite Hbody. simpl.
      unfold raise, mret, M_ret.
      by destruct (WORKERS w' !! window_id (window v)).
    + exists [0; 0; 0]. unfold run, step. simpl.
      rewrite decide_True by done. simpl. by rewrite Hbody.
  - exists [0; 0]. unfold run, step. simpl.
    rewrite decide_False by done. simpl.
    unfold mbind, M_bind, raise, mret, M_ret. simpl.
    by destruct (WORKERS w !! window_id (window v)).
Qed.

End Solo.

(** ** Requests and responses *)

Lemma after_last_absent sep s : occurs sep s = false → after_last sep s = s.
Proof.
  destruct s as [|c r]; simpl; [done|].
  intros [Hc Hr]%orb_false_elim. by rewrite Hr, Hc.
Qed.

Lemma substring_all s : String.substring 0 (String.length s) s = s.
Proof. induction s as [|c r IH]; simpl; [done|]. by f_equal. Qed.

Lemma rowcol_from_spec s point row col :
  rowcol_from s point row col
  = (row + newlines (upto point s),
     if occurs newline (upto point s)
     then String.length (after_last newline (upto point s))
     else col + String.length (upto point s)).
Proof.
  unfold upto. revert point row col.
  induction s as [|c r IH]; intros [|point] row col; simpl;
    try (f_equal; lia).
  rewrite !IH.
  destruct (Ascii.eqb c newline) eqn:Hc; simpl;
    destruct (occurs newline (String.substring 0 point r)); simpl;
    f_equal; lia.
Qed.

Lemma rowcol_spec b point :
  rowcol b point
  = (newlines (upto point (text b)),
     String.length (after_last newline (upto point (text b)))).
Proof.
  unfold rowcol. rewrite rowcol_from_spec. simpl.
  destruct (occurs newline (upto point (text b))) eqn:Hnl; [done|].
  by rewrite after_last_absent.
Qed.

Lemma file_name_or_empty_default b :
  Worker.file_name_or_empty b = default "" (file_name b).
Proof.
  unfold Worker.file_name_or_empty. destruct (file_name b) as [name|]; [|done].
  simpl. by destruct (String.eqb_spec name "") as [->|].
Qed.

Lemma is_True_false flag : flag ≠ VBool true → is_True flag = false.
Proof. destruct flag as [| [] | | | |]; simpl; congruence. Qed.

Lemma truthy_dict d key value :
  d !! key = Some value → truthy (VDict d) = true.
Proof.
  intros Hkey. simpl. apply negb_true_iff, Nat.eqb_neq.
  intros ->%map_size_empty_inv. by rewrite lookup_empty in Hkey.
Qed.

(** C9: the request [autocomplete] sends carries the whole text of the
    document as [source], the line of the cursor counted from 1 as [line],
    its column counted from 0 as [offset], and as [filename] the view's
    file name, the empty string when the view has none; it carries nothing
    else, and it is the only outside call made. *)
Theorem autocomplete_request self w o c (location : nat) :
  heap w !! self = Some o →
  client o = Some c →
  ∃ data,
    trace (final (Worker.autocomplete self location w))
    = trace w ++ [Request c "autocomplete" data]
    ∧ data !! "source" = Some (VStr (text (buffer (view o))))
    ∧ data !! "line"
      = Some (VInt (line_number (text (buffer (view o))) location))
    ∧ data !! "offset"
      = Some (VInt (column_offset (text (buffer (view o))) location))
    ∧ data !! "filename"
      = Some (VStr (default "" (file_name (buffer (view o)))))
    ∧ dom data = {["source"; "line"; "offset"; "filename"]}
    ∧ (1 ≤ line_number (text (buffer (view o))) location)%Z
    ∧ (0 ≤ column_offset (text (buffer (view o))) location)%Z.
Proof.
  intros Hself Hclient.
  unfold Worker.autocomplete, Client_request, substr, size_.
  run_m. rewrite Hself, rowcol_spec. simpl. rewrite Hself, Hclient. simpl.
  rewrite Nat.sub_0_r, substring_all, file_name_or_empty_default.
  eexists. split.
  - destruct (replies w) as [|[r|e] rest]; simpl; [done| |done].
    destruct (truthy r); simpl; [|done].
    destruct (subscript r "success") as [flag|e]; simpl; [|done].
    destruct (is_True flag); simpl; [|done].
    by destruct (subscript r "completions").
  - unfold line_number, column_offset.
    repeat split; try done; lia.
Qed.



(** C8: when the response to [autocomplete] has [success] equal to [True],
    the operation returns the response's [completions] as they are. *)
Theorem successful_response_gives_completions
    self w o c d completions rest (location : nat) :
  heap w !! self = Some o →
  client o = Some c →
  replies w = Reply (VDict d) :: rest →
  d !! "success" = Some (VBool true) →
  d !! "completions" = Some completions →
  ∃ w', Worker.autocomplete self location w = Return completions w'.
Proof.
  intros Hself Hclient Hreplies Hflag Hcompletions.
  unfold Worker.autocomplete, Client_request.
  run_m. rewrite Hself. destruct (rowcol _ _) as [row col]. simpl.
  rewrite Hself, Hclient. simpl. rewrite Hreplies.
  rewrite (truthy_dict d _ _ Hflag). simpl. rewrite Hflag. simpl.
  rewrite Hcompletions. by eexists.
Qed.

(** ** The session, run *)

Lemma running_worker answers :
  heap (running answers) !! 0 = Some demo_worker.
Proof. reflexivity. Qed.

(** C1 does not hold of the code: [lookup] does not test the registry
    again once it holds the lock.  Two threads that both find the window
    missing each construct a Worker; two backends are spawned, none is
    terminated, and the two calls return different Workers for the same
    window. *)
Theorem racing_lookups_construct_two_workers :
  ∃ c, run (H := posix_host) race_schedule
         (enter (boot []) [demo_view; demo_view]) = Some c
    ∧ threads c = [(demo_view, Done 0); (demo_view, Done 1)]
    ∧ length (heap (world c)) = 2
    ∧ spawned (world c) = [{| pid := 100 |}; {| pid := 101 |}]
    ∧ terminated (world c) = []
    ∧ WORKERS (world c) !! window_id demo_window = Some 1.
Proof.
  eexists. split; [vm_compute; reflexivity|].
  vm_compute. by repeat split.
Qed.

(** C2 does not hold of the code: [stop] clears the attribute [process]
    and leaves [proccess], the one it tests, bound to the handle.  A second
    [stop] calls [terminate()] on the same process once more. *)
Theorem second_stop_terminates_again :
  ∃ w1 w2,
    Worker.stop 0 (running []) = Return tt w1
    ∧ Worker.stop 0 w1 = Return tt w2
    ∧ proccess <$> heap w1 !! 0 = Some (Some {| pid := 100 |})
    ∧ process <$> heap w1 !! 0 = Some (Bound None)
    ∧ terminated w1 = [{| pid := 100 |}]
    ∧ terminated w2 = [{| pid := 100 |}; {| pid := 100 |}].
Proof.
  do 2 eexists. split; [vm_compute; reflexivity|].
  split; [vm_compute; reflexivity|].
  vm_compute. by repeat split.
Qed.

(** C3 does not hold of the code: [restart] goes straight to
    [start_worker].  On a Worker that holds a live backend it spawns a
    second one; the first is not terminated, its client is not closed, and
    both processes are alive afterwards. *)
Theorem restart_leaves_first_backend_alive :
  ∃ w',
    Worker.restart (H := posix_host) 0 (running []) = Return tt w'
    ∧ spawned w' = [{| pid := 100 |}; {| pid := 101 |}]
    ∧ terminated w' = []
    ∧ closed w' = []
    ∧ 100 ∈ live w' ∧ 101 ∈ live w'
    ∧ proccess <$> heap w' !! 0 = Some (Some {| pid := 101 |}).
Proof.
  eexists. split; [vm_compute; reflexivity|].
  repeat split; try (vm_compute; reflexivity);
    apply bool_decide_unpack; vm_compute; exact I.
Qed.

(** The first lookup builds Worker 0, and this is what it spawns. *)
Example first_lookup_trace :
  trace (running [])
  = [Bind 50001;
     Spawn {| pid := 100 |}
       ["python"; "-B";
        "/opt/st3/Packages/anaconda/anaconda_server/jsonserver.py";
        "-p"; "proj"; "50001"; "-e"; "/srv/lib"; "-e"; "/opt/py"; "4242"]
       {| cwd := "/opt/st3/Packages/anaconda"; bufsize := -1;
          startupinfo := None |};
     Connect {| host := "localhost"; cport := 50001 |}].
Proof. vm_compute. reflexivity. Qed.

(** A second lookup of the same view, alone, finds Worker 0 and spawns
    nothing. *)
Example second_lookup_reuses :
  Worker.lookup (H := posix_host) demo_view (running [])
  = Return 0 (running []).
Proof. vm_compute. reflexivity. Qed.

(** The cursor after [os.] on the second line: line 2, column 3. *)
Example cursor_after_dot :
  line_number (text demo_buffer) 13 = 2%Z
  ∧ column_offset (text demo_buffer) 13 = 3%Z.
Proof. split; vm_compute; reflexivity. Qed.

(** [stop] then [restart] terminates backend 100 once and brings up
    backend 101 on the next port. *)
Example stop_then_restart_trace :
  terminated (final ((Worker.stop 0;; Worker.restart (H := posix_host) 0)
                       (running [])))
  = [{| pid := 100 |}]
  ∧ spawned (final ((Worker.stop 0;; Worker.restart (H := posix_host) 0)
                      (running [])))
    = [{| pid := 100 |}; {| pid := 101 |}].
Proof. split; vm_compute; reflexivity. Qed.

(** *** The general statements, at the session *)

#[local] Existing Instance posix_host.

(** The first lookup in a fresh editor: the registry is empty, hence
    well-formed. *)
Lemma lookup_returns_registered_worker_witness :
  registry_valid (boot [])
  ∧ match Worker.lookup demo_view (boot []) with
    | Return self w' =>
        WORKERS w' !! window_id (window demo_view) = Some self
        ∧ is_Some (heap w' !! self)
        ∧ registry_valid w'
    | Raise e w' =>
        WORKERS (boot []) !! window_id (window demo_view) = None
        ∧ cannot_start (boot []) (window demo_view)
        ∧ WORKERS w' = WORKERS (boot [])
    end.
Proof.
  assert (registry_valid (boot [])) as Hvalid.
  { intros id self Hid. simpl in Hid. by rewrite lookup_empty in Hid. }
  split; [exact Hvalid|].
  exact (lookup_returns_registered_worker demo_view (boot []) Hvalid).
Defined.

(** [stop] then [restart] on Worker 0: the allocator's next port is
    50002. *)
Lemma stop_then_restart_allocates_witness :
  ∃ w' o' args kwargs,
    (Worker.stop 0;; Worker.restart 0) (running []) = Return tt w'
    ∧ heap w' !! 0 = Some o'
    ∧ port o' = Bound 50002%Z
    ∧ client o' = Some {| host := "localhost"; cport := 50002 |}
    ∧ proccess o' = Some {| pid := next_pid (running []) |}
    ∧ next_pid (running []) ∈ live w'
    ∧ ephemeral w' = [50003%Z]
    ∧ trace w'
      = trace (running []) ++ stop_events demo_worker
        ++ [Bind 50002;
            Spawn {| pid := next_pid (running []) |} args kwargs;
            Connect {| host := "localhost"; cport := 50002 |}].
Proof.
  apply (stop_then_restart_allocates (running []) 0 demo_worker
           50002 [50003%Z] "proj");
    vm_compute; reflexivity.
Defined.

(** [start_worker] on Worker 0 of the running session. *)
Lemma start_worker_command_line_witness :
  ∃ project_name p kwargs,
    Worker.generate_project_name (window (view demo_worker))
    = Ok project_name
    ∧ ephemeral (running [])
      = p :: ephemeral (final (Worker.start_worker 0 (running [])))
    ∧ spawned (final (Worker.start_worker 0 (running [])))
      = spawned (running []) ++ [{| pid := 101 |}]
    ∧ trace (final (Worker.start_worker 0 (running [])))
      = trace (running [])
        ++ [Bind p;
            Spawn {| pid := 101 |}
              (command_line (interpreter (window (view demo_worker)))
                 entry_path project_name (str p)
                 (extra_paths (window (view demo_worker))) (str os_getpid))
              kwargs].
Proof.
  apply (start_worker_command_line 0 (running []) demo_worker
           {| pid := 101 |} (final (Worker.start_worker 0 (running []))));
    vm_compute; reflexivity.
Defined.


(** The specification's completion example. *)
Lemma successful_response_gives_completions_witness :
  ∃ w', Worker.autocomplete 0 13 (running [Reply completions_reply])
        = Return (VList [VStr "path"; VStr "getcwd"]) w'.
Proof.
  apply (successful_response_gives_completions 0
           (running [Reply completions_reply]) demo_worker
           {| host := "localhost"; cport := 50001 |}
           (<["success" := VBool true]>
            (<["completions" := VList [VStr "path"; VStr "getcwd"]]> ∅))
           (VList [VStr "path"; VStr "getcwd"]) []);
    vm_compute; reflexivity.
Defined.

(** The request sent for the cursor after [os.]. *)
Lemma autocomplete_request_witness :
  ∃ data,
    trace (final (Worker.autocomplete 0 13
                    (running [Reply completions_reply])))
    = trace (running [Reply completions_reply])
      ++ [Request {| host := "localhost"; cport := 50001 |}
            "autocomplete" data]
    ∧ data !! "source" = Some (VStr (text (buffer (view demo_worker))))
    ∧ data !! "line"
      = Some (VInt (line_number (text (buffer (view demo_worker))) 13))
    ∧ data !! "offset"
      = Some (VInt (column_offset (text (buffer (view demo_worker))) 13))
    ∧ data !! "filename"
      = Some (VStr (default "" (file_name (buffer (view demo_worker)))))
    ∧ dom data = {["source"; "line"; "offset"; "filename"]}
    ∧ (1 ≤ line_number (text (buffer (view demo_worker))) 13)%Z
    ∧ (0 ≤ column_offset (text (buffer (view demo_worker))) 13)%Z.
Proof.
  apply (autocomplete_request 0 (running [Reply completions_reply])
           demo_worker {| host := "localhost"; cport := 50001 |} 13);
    vm_compute; reflexivity.
Defined.

(** * Further properties of the code *)

(** ** Project names, at the edges *)

Lemma split_absent sep s : occurs sep s = false → split sep s = [s].
Proof.
  induction s as [|c r IH]; simpl; [done|].
  intros [Hc Hr]%orb_false_elim. by rewrite Hc, (IH Hr).
Qed.

Lemma append_empty t : "" +:+ t = t.
Proof. reflexivity. Qed.

Lemma split_cut sep piece rest :
  occurs sep piece = false →
  split sep (piece +:+ String sep rest) = piece :: split sep rest.
Proof.
  induction piece as [|c r IH]; simpl.
  - intros _. by rewrite Ascii.eqb_refl.
  - intros [Hc Hr]%orb_false_elim. by rewrite Hc, (IH Hr).
Qed.

Lemma occurs_append sep s t :
  occurs sep (s +:+ t) = occurs sep s || occurs sep t.
Proof.
  induction s as [|c r IH]; [done|].
  rewrite append_cons. simpl. by rewrite IH, orb_assoc.
Qed.

Lemma after_last_append sep s t :
  occurs sep t = false → after_last sep (s +:+ String sep t) = t.
Proof.
  intros Ht. induction s as [|c r IH].
  - rewrite append_empty. simpl. by rewrite Ht, Ascii.eqb_refl.
  - rewrite append_cons. simpl. rewrite occurs_append. simpl.
    by rewrite Ascii.eqb_refl, orb_true_r.
Qed.

Lemma before_first_keeps_clean sep c s :
  occurs sep s = false → occurs sep (before_first c s) = false.
Proof.
  induction s as [|a r IH]; simpl; [done|].
  intros [Ha Hr]%orb_false_elim.
  destruct (Ascii.eqb a c); simpl; [done|]. by rewrite Ha, (IH Hr).
Qed.

Lemma no_slash_raises window path :
  naming_path window = Some path → occurs "/" path = false →
  Worker.generate_project_name window = Err IndexError.
Proof.
  unfold naming_path, Worker.generate_project_name.
  destruct (project_file_name window) as [file|].
  - intros [= ->] Hslash. by rewrite (rsplit1_absent _ _ Hslash).
  - destruct (folders window) as [|first rest]; [done|].
    intros [= ->] Hslash. by rewrite (rsplit1_absent _ _ Hslash).
Qed.

(** X1: [generate_project_name] raises nothing but [IndexError], and
    raises it exactly when the path it names the project after (the
    project file, else the first folder) contains no slash. *)
Theorem generate_project_name_raises_without_slash window :
  (∀ e, Worker.generate_project_name window = Err e → e = IndexError)
  ∧ (Worker.generate_project_name window = Err IndexError
     ↔ ∃ path, naming_path window = Some path ∧ occurs "/" path = false).
Proof.
  split; [apply generate_project_name_error|].
  split; [|intros (path & Hpath & Hslash); by eapply no_slash_raises].
  unfold naming_path, Worker.generate_project_name.
  destruct (project_file_name window) as [path|].
  - destruct (occurs "/" path) eqn:Hslash; [|by exists path].
    destruct (rsplit1_present _ _ Hslash) as [dir ->].
    destruct (split_head "." (after_last "/" path)) as [tl Htl].
    unfold index; simpl. by rewrite Htl.
  - destruct (folders window) as [|first rest]; [done|].
    destruct (occurs "/" first) eqn:Hslash; [|by exists first].
    by destruct (rsplit1_present _ _ Hslash) as [dir ->].
Qed.

(** X2: a name taken from a project file or from a folder is a single
    path component: it contains no slash, and a name taken from a project
    file contains no dot either. *)
Theorem project_name_is_one_component window path name :
  naming_path window = Some path →
  Worker.generate_project_name window = Ok name →
  occurs "/" name = false
  ∧ (is_Some (project_file_name window) → occurs "." name = false).
Proof.
  unfold naming_path. intros Hpath Hname.
  destruct (occurs "/" path) eqn:Hslash.
  2: { by rewrite (no_slash_raises window path) in Hname. }
  destruct (project_file_name window) as [file|] eqn:Hfile.
  - injection Hpath as ->.
    rewrite (project_file_case _ _ Hfile Hslash) in Hname.
    injection Hname as <-. split; [|intros _; apply before_first_clean].
    apply before_first_keeps_clean, after_last_clean.
  - destruct (folders window) as [|first rest] eqn:Hfolders; [done|].
    injection Hpath as ->.
    rewrite (first_folder_case _ _ _ Hfile Hfolders Hslash) in Hname.
    injection Hname as <-. split; [apply after_last_clean|].
    by intros [? ?].
Qed.

(** X3: the derived name can be empty.  A first folder written with a
    trailing slash, and a project file whose base name starts with a dot,
    both give the empty project name. *)
Theorem project_name_can_be_empty window :
  (∀ dir rest,
     project_file_name window = None →
     folders window = (dir +:+ "/") :: rest →
     Worker.generate_project_name window = Ok "")
  ∧ (∀ dir ext,
       project_file_name window = Some (dir +:+ String "/" ("." +:+ ext)) →
       occurs "/" ext = false →
       Worker.generate_project_name window = Ok "").
Proof.
  split.
  - intros dir rest Hfile Hfolders.
    rewrite (first_folder_case _ _ _ Hfile Hfolders).
    + by rewrite after_last_append.
    + rewrite occurs_append. simpl. apply orb_true_r.
  - intros dir ext Hfile Hext.
    rewrite (project_file_case _ _ Hfile).
    + rewrite after_last_append; [done|]. by simpl.
    + rewrite occurs_append. simpl. apply orb_true_r.
Qed.

(** The two kinds of window, one each. *)
Lemma project_name_can_be_empty_witness :
  Worker.generate_project_name slash_window = Ok ""
  ∧ Worker.generate_project_name dotfile_window = Ok "".
Proof.
  split.
  - exact (proj1 (project_name_can_be_empty slash_window)
             "/home/u/myrepo" [] eq_refl eq_refl).
  - exact (proj2 (project_name_can_be_empty dotfile_window)
             "/home/u" "sublime-project" eq_refl eq_refl).
Defined.

(** ** Extra search paths *)

Lemma split_join sep piece pieces :
  Forall (λ p, occurs sep p = false) (piece :: pieces) →
  split sep (join sep (piece :: pieces)) = piece :: pieces.
Proof.
  revert piece. induction pieces as [|next pieces IH]; intros piece Hclean.
  - apply split_absent. by inversion Hclean.
  - inversion Hclean as [|? ? Hpiece Hrest]; subst.
    change (join sep (piece :: next :: pieces))
      with (piece +:+ String sep (join sep (next :: pieces))).
    by rewrite (split_cut _ _ _ Hpiece), (IH next Hrest).
Qed.

(** X4: extra paths survive the round trip through the setting.  When
    the [extra_paths] setting is a list of non-empty, comma-free paths
    joined by commas, the loop of [start_worker] appends one [-e path]
    pair per path, in order, and nothing else. *)
Theorem extra_paths_round_trip sub_args paths :
  Forall (λ p, p ≠ "" ∧ occurs "," p = false) paths →
  Worker.extend_extra_paths sub_args (join "," paths)
  = sub_args ++ (paths ≫= λ path, ["-e"; path]).
Proof.
  intros Hpaths. rewrite extend_extra_paths_flat. f_equal.
  destruct paths as [|piece pieces]; [done|].
  rewrite split_join
    by (eapply Forall_impl; [exact Hpaths|by intros ? [_ ?]]).
  f_equal. clear sub_args.
  induction Hpaths as [|path paths [Hpath _] _ IH]; [done|].
  by rewrite filter_cons_True, IH.
Qed.

Lemma extra_paths_round_trip_witness :
  Worker.extend_extra_paths ["python"] (join "," ["/srv/lib"; "/opt/py"])
  = ["python"] ++ (["/srv/lib"; "/opt/py"] ≫= λ path, ["-e"; path]).
Proof.
  apply extra_paths_round_trip.
  repeat constructor; discriminate.
Defined.

(** ** Starting and restarting, exactly *)

Section Exactly.
Context `{Host}.

Lemma start_worker_exact w self o p rest project_name :
  heap w !! self = Some o →
  ephemeral w = p :: rest →
  Worker.generate_project_name (window (view o)) = Ok project_name →
  executable (interpreter (window (view o))) = true →
  Worker.start_worker self w
  = Return {| pid := next_pid w |}
      (after_spawn self p rest (window (view o)) project_name w).
Proof.
  intros Hself Hports Hname Hexec.
  unfold Worker.start_worker, Worker.port. run_m.
  rewrite Hports. simpl. rewrite list_lookup_alter_eq, Hself. simpl.
  rewrite Hname. simpl. rewrite list_lookup_alter_eq, Hself. simpl.
  unfold subprocess_Popen. rewrite extend_extra_paths_flat. simpl.
  fold (interpreter (window (view o))). rewrite Hexec.
  unfold after_spawn, after_port, command_line, spawn_kwargs,
    extra_paths, entry_path.
  reflexivity.
Qed.

Lemma start_worker_fails_exact w self o p rest :
  heap w !! self = Some o →
  ephemeral w = p :: rest →
  Worker.generate_project_name (window (view o)) = Err IndexError
  ∨ executable (interpreter (window (view o))) = false →
  ∃ e, Worker.start_worker self w = Raise e (after_port self p rest w).
Proof.
  intros Hself Hports Hwhy.
  unfold Worker.start_worker, Worker.port. run_m.
  rewrite Hports. simpl. rewrite list_lookup_alter_eq, Hself. simpl.
  destruct (Worker.generate_project_name (window (view o)))
    as [project_name|e] eqn:Hname; simpl; [|by eexists].
  destruct Hwhy as [|Hexec]; [done|].
  rewrite list_lookup_alter_eq, Hself. simpl.
  unfold subprocess_Popen. rewrite extend_extra_paths_flat. simpl.
  fold (interpreter (window (view o))). rewrite Hexec. by eexists.
Qed.

Lemma restart_exact w self o p rest project_name :
  heap w !! self = Some o →
  ephemeral w = p :: rest →
  Worker.generate_project_name (window (view o)) = Ok project_name →
  executable (interpreter (window (view o))) = true →
  Worker.restart self w
  = Return tt
      (set_heap
         (<[self := restarted o p {| pid := next_pid w |}]> (heap w))
         (log (Connect {| host := "localhost"; cport := p |})
            (after_spawn self p rest (window (view o)) project_name w))).
Proof.
  intros Hself Hports Hname Hexec. unfold Worker.restart.
  unfold mbind at 1, M_bind at 1.
  rewrite (start_worker_exact w self o p rest project_name) by done.
  run_m. rewrite !list_lookup_alter_eq, Hself. simpl.
  unfold set_heap, log. simpl. do 2 f_equal. apply list_eq. intros i.
  destruct (decide (i = self)) as [->|Hne].
  - rewrite !list_lookup_alter_eq, Hself, list_lookup_insert_eq
      by by eapply lookup_lt_Some.
    by destruct o.
  - by rewrite !list_lookup_alter_ne, list_lookup_insert_ne.
Qed.

End Exactly.

(** ** What starting a backend passes and leaves behind *)

Section Starting.
Context `{Host}.

(** X5: the process is spawned with the plugin's own directory as
    working directory and [bufsize] -1, and it is handed a [STARTUPINFO]
    with the show-window flag exactly when the platform is Windows. *)
Theorem start_worker_spawn_kwargs self w o child w' :
  heap w !! self = Some o →
  Worker.start_worker self w = Return child w' →
  ∃ args kwargs,
    last (trace w') = Some (Spawn child args kwargs)
    ∧ cwd kwargs = os_path_dirname (os_path_abspath __file__)
    ∧ bufsize kwargs = (-1)%Z
    ∧ (sublime_platform = "windows" →
       startupinfo kwargs = Some STARTF_USESHOWWINDOW)
    ∧ (sublime_platform ≠ "windows" → startupinfo kwargs = None).
Proof.
  intros Hself Hrun.
  pose proof (start_worker_outcome w self o Hself) as Hout.
  rewrite Hrun in Hout.
  destruct Hout as (p & name & _ & Hp & Hname & Hexec & _).
  rewrite (start_worker_exact w self o p (ephemeral w') name) in Hrun
    by done.
  injection Hrun as <- <-.
  eexists _, spawn_kwargs. split; [apply last_snoc|].
  unfold spawn_kwargs; simpl. repeat split.
  - by intros ->.
  - intros Hne. by destruct (String.eqb_spec sublime_platform "windows").
Qed.

(** X6: a start that fails after the port was allocated has already
    rebound the Worker.  When the project name cannot be derived or the
    interpreter cannot be executed, [restart] raises; the port the
    allocator gave is used up and is now the Worker's [port], while its
    client and process handle are the old ones and nothing was spawned. *)
Theorem failed_restart_rebinds_port self w o p rest :
  heap w !! self = Some o →
  ephemeral w = p :: rest →
  Worker.generate_project_name (window (view o)) = Err IndexError
  ∨ executable (interpreter (window (view o))) = false →
  ∃ e w' o',
    Worker.restart self w = Raise e w'
    ∧ heap w' !! self = Some o'
    ∧ port o' = Bound p
    ∧ client o' = client o
    ∧ proccess o' = proccess o
    ∧ ephemeral w' = rest
    ∧ spawned w' = spawned w
    ∧ WORKERS w' = WORKERS w.
Proof.
  intros Hself Hports Hwhy.
  destruct (start_worker_fails_exact w self o p rest Hself Hports Hwhy)
    as [e Hstart].
  exists e, (after_port self p rest w), (set_port p o).
  unfold Worker.restart. unfold mbind at 1, M_bind at 1. rewrite Hstart.
  unfold after_port, spawned. simpl.
  rewrite list_lookup_alter_eq, Hself, omap_app. simpl.
  by rewrite app_nil_r.
Qed.

End Starting.

(** ** One Worker at a time *)

Lemma stop_frame w self o other :
  heap w !! self = Some o →
  other ≠ self →
  heap (final (Worker.stop self w)) !! other = heap w !! other.
Proof.
  intros Hself Hother. unfold Worker.stop. run_m. rewrite Hself.
  destruct o as [v [c|] [child|] pt pr]; simpl;
    rewrite ?list_lookup_alter_eq, ?Hself; simpl;
    rewrite ?list_lookup_alter_eq, ?Hself; simpl;
    by rewrite ?list_lookup_alter_ne.
Qed.

Section OneWorker.
Context `{Host}.

Lemma restart_no_port w self :
  ephemeral w = [] → Worker.restart self w = Raise OSError w.
Proof.
  intros Hports. unfold Worker.restart, Worker.start_worker, Worker.port.
  run_m. by rewrite Hports.
Qed.

(** The world [restart] ends in, whatever the outcome, agrees with the
    one it started in on the registry and on every other Worker. *)
Lemma restart_frame w self o :
  heap w !! self = Some o →
  WORKERS (final (Worker.restart self w)) = WORKERS w
  ∧ ∀ other, other ≠ self →
      heap (final (Worker.restart self w)) !! other = heap w !! other.
Proof.
  intros Hself. destruct (ephemeral w) as [|p rest] eqn:Hports.
  { by rewrite restart_no_port. }
  assert (∀ e,
    Worker.start_worker self w = Raise e (after_port self p rest w) →
    Worker.restart self w = Raise e (after_port self p rest w)) as Hfail.
  { intros e Hstart. unfold Worker.restart.
    unfold mbind at 1, M_bind at 1. by rewrite Hstart. }
  destruct (Worker.generate_project_name (window (view o)))
    as [name|e] eqn:Hname.
  - destruct (executable (interpreter (window (view o)))) eqn:Hexec.
    + rewrite (restart_exact w self o p rest name) by done. simpl.
      split; [done|]. intros other Hother.
      by rewrite list_lookup_insert_ne.
    + destruct (start_worker_fails_exact w self o p rest) as [e Hstart];
        [done|done|by right|].
      rewrite (Hfail e Hstart). simpl.
      split; [done|]. intros other Hother.
      by rewrite list_lookup_alter_ne.
  - apply generate_project_name_error in Hname as Heq. subst e.
    destruct (start_worker_fails_exact w self o p rest) as [e Hstart];
      [done|done|by left|].
    rewrite (Hfail e Hstart). simpl.
    split; [done|]. intros other Hother.
    by rewrite list_lookup_alter_ne.
Qed.

(** X7: the lifecycle operations work on one Worker.  Whether they
    return or raise, [restart] and [stop] leave every other Worker object
    and the registry exactly as they were. *)
Theorem lifecycle_touches_one_worker self other w o :
  heap w !! self = Some o →
  other ≠ self →
  heap (final (Worker.restart self w)) !! other = heap w !! other
  ∧ heap (final (Worker.stop self w)) !! other = heap w !! other
  ∧ WORKERS (final (Worker.restart self w)) = WORKERS w
  ∧ WORKERS (final (Worker.stop self w)) = WORKERS w.
Proof.
  intros Hself Hother.
  destruct (restart_frame w self o Hself) as [Hreg Hheap].
  destruct (stop_effect w self o Hself) as (w' & Hstop & _ & _ & _ & _ & _
                                             & _ & _ & Hreg').
  split; [by apply Hheap|]. split; [by eapply stop_frame|].
  split; [done|]. by rewrite Hstop.
Qed.

End OneWorker.

(** ** Looking up, again *)

Section LookingUp.
Context `{Host}.

Lemma create_and_register_exact v w p rest project_name :
  ephemeral w = p :: rest →
  Worker.generate_project_name (window v) = Ok project_name →
  executable (interpreter (window v)) = true →
  Worker.create_and_register v w
  = Return tt (created v p rest project_name w).
Proof.
  intros Hports Hname Hexec.
  unfold Worker.create_and_register, Worker.__init__, alloc.
  unfold mbind at 1 2 3, M_bind at 1 2 3.
  rewrite (restart_exact (set_heap (heap w ++ [fresh v]) w)
             (length (heap w)) (fresh v) p rest project_name);
    [done|by apply list_lookup_middle|done..].
Qed.

Lemma create_and_register_inv v w w' :
  Worker.create_and_register v w = Return tt w' →
  ∃ p rest project_name,
    ephemeral w = p :: rest
    ∧ Worker.generate_project_name (window v) = Ok project_name
    ∧ executable (interpreter (window v)) = true.
Proof.
  unfold Worker.create_and_register, Worker.__init__, alloc.
  unfold mbind at 1 2 3, M_bind at 1 2 3.
  pose proof (restart_outcome (set_heap (heap w ++ [fresh v]) w)
                (length (heap w)) (fresh v)
                (list_lookup_middle _ _ _ _ eq_refl)) as Hout.
  destruct (Worker.restart _ _) as [[] w1|e w1]; [|done].
  intros _. destruct Hout as (p & name & _ & Hp & Hname & Hexec & _).
  by exists p, (ephemeral w1), name.
Qed.

Lemma lookup_registered v w self :
  WORKERS w !! window_id (window v) = Some self →
  Worker.lookup v w = Return self w.
Proof.
  intros Hreg. unfold Worker.lookup. run_m.
  rewrite decide_False by congruence. simpl. by rewrite Hreg.
Qed.

Lemma lookup_result_registered v w self w' :
  Worker.lookup v w = Return self w' →
  WORKERS w' !! window_id (window v) = Some self.
Proof.
  unfold Worker.lookup, gets. unfold mbind at 1 2, M_bind at 1 2.
  destruct (decide _) as [Hnew|Hold].
  - unfold mbind at 1, M_bind at 1.
    destruct (Worker.create_and_register v w) as [[] w1|e w1]; [|done].
    run_m. destruct (WORKERS w1 !! window_id (window v)) eqn:Hreg; [|done].
    by intros [= <- <-].
  - run_m. destruct (WORKERS w !! window_id (window v)) eqn:Hreg; [|done].
    by intros [= <- <-].
Qed.

(** [lookup] on a window without a Worker, when it returns. *)
Lemma lookup_creates v w self w' :
  WORKERS w !! window_id (window v) = None →
  Worker.lookup v w = Return self w' →
  ∃ p rest project_name,
    ephemeral w = p :: rest
    ∧ self = length (heap w)
    ∧ w' = created v p rest project_name w.
Proof.
  intros Hnew. unfold Worker.lookup, gets.
  unfold mbind at 1 2, M_bind at 1 2. rewrite decide_True by done.
  unfold mbind at 1, M_bind at 1.
  destruct (Worker.create_and_register v w) as [[] w1|e w1] eqn:Hbody;
    [|done].
  destruct (create_and_register_inv v w w1 Hbody)
    as (p & rest & name & Hports & Hname & Hexec).
  rewrite (create_and_register_exact v w p rest name) in Hbody by done.
  injection Hbody as <-. run_m. rewrite lookup_insert_eq.
  intros [= <- <-]. by exists p, rest, name.
Qed.

(** X8: once a window has its Worker, looking the window up again, from
    the same view or from another view of that window, returns that same
    Worker and changes nothing: no second Worker, no second backend. *)
Theorem lookup_again_returns_same_worker v v' w self w' :
  Worker.lookup v w = Return self w' →
  window_id (window v') = window_id (window v) →
  Worker.lookup v' w' = Return self w'.
Proof.
  intros Hfirst Hsame. apply lookup_registered. rewrite Hsame.
  by eapply lookup_result_registered.
Qed.

End LookingUp.

(** ** Which view a Worker serves *)

Lemma autocomplete_sends self w o c (location : nat) :
  heap w !! self = Some o →
  client o = Some c →
  ∃ data,
    trace (final (Worker.autocomplete self location w))
    = trace w ++ [Request c "autocomplete" data]
    ∧ data !! "source" = Some (VStr (text (buffer (view o)))).
Proof.
  intros Hself Hclient.
  unfold Worker.autocomplete, Client_request, substr, size_.
  run_m. rewrite Hself. destruct (rowcol _ _) as [row col]. simpl.
  rewrite Hself, Hclient. simpl. rewrite Nat.sub_0_r, substring_all.
  eexists. split.
  { destruct (replies w) as [|[r|e] rest]; simpl; [done| |done].
    destruct (truthy r); simpl; [|done].
    destruct (subscript r "success") as [flag|e]; simpl; [|done].
    destruct (is_True flag); simpl; [|done].
    by destruct (subscript r "completions"). }
  done.
Qed.

Lemma autocomplete_without_client self w o (location : nat) :
  heap w !! self = Some o →
  client o = None →
  Worker.autocomplete self location w = Raise AttributeError w.
Proof.
  intros Hself Hclient. unfold Worker.autocomplete. run_m.
  rewrite Hself. destruct (rowcol _ _) as [row col]. simpl.
  by rewrite Hself, Hclient.
Qed.

Lemma run_linter_without_client self w o code settings filename :
  heap w !! self = Some o →
  client o = None →
  Worker.run_linter self code settings filename w = Raise AttributeError w.
Proof.
  intros Hself Hclient. unfold Worker.run_linter. run_m.
  by rewrite Hself, Hclient.
Qed.

Section Serving.
Context `{Host}.

(** X9: a Worker keeps the view it was built with.  When the Worker of a
    window was built by a lookup from one view, a lookup from another view
    of the same window returns that Worker, and [autocomplete] on it sends
    the text of the first view as [source]. *)
Theorem worker_serves_its_first_view v v' w self w' (location : nat) :
  WORKERS w !! window_id (window v) = None →
  Worker.lookup v w = Return self w' →
  window_id (window v') = window_id (window v) →
  ∃ c data,
    Worker.lookup v' w' = Return self w'
    ∧ trace (final (Worker.autocomplete self location w'))
      = trace w' ++ [Request c "autocomplete" data]
    ∧ data !! "source" = Some (VStr (text (buffer v))).
Proof.
  intros Hnew Hfirst Hsame.
  assert (Worker.lookup v' w' = Return self w') as Hagain.
  { apply lookup_registered. rewrite Hsame.
    by eapply lookup_result_registered. }
  destruct (lookup_creates v w self w' Hnew Hfirst)
    as (p & rest & name & _ & -> & ->).
  destruct (autocomplete_sends (length (heap w))
              (created v p rest name w)
              (restarted (fresh v) p {| pid := next_pid w |})
              {| host := "localhost"; cport := p |} location)
    as (data & Htrace & Hsource); [|done|by eexists _, data].
  unfold created. simpl. apply list_lookup_insert_eq.
  rewrite length_app. simpl. lia.
Qed.

(** X10: [stop] does not unregister.  After [stop] the Worker is still
    the one [lookup] returns for its window, without a new backend being
    started, and every request on it raises [AttributeError] before
    anything is sent, because its client is [None]. *)
Theorem stopped_worker_stays_registered v self w o :
  WORKERS w !! window_id (window v) = Some self →
  heap w !! self = Some o →
  ∃ w1,
    Worker.stop self w = Return tt w1
    ∧ Worker.lookup v w1 = Return self w1
    ∧ (∀ location : nat,
         Worker.autocomplete self location w1 = Raise AttributeError w1)
    ∧ (∀ code settings filename,
         Worker.run_linter self code settings filename w1
         = Raise AttributeError w1).
Proof.
  intros Hreg Hself.
  destruct (stop_effect w self o Hself)
    as (w1 & Hstop & Hself1 & _ & _ & _ & _ & _ & _ & Hreg1).
  exists w1. split; [done|].
  split; [apply lookup_registered; by rewrite Hreg1|].
  split.
  - intros location. by eapply autocomplete_without_client.
  - intros code settings filename. by eapply run_linter_without_client.
Qed.

End Serving.

(** ** Responses, well-formed or not *)

Ltac run_request Hself Hclient :=
  unfold Worker.autocomplete, Worker.run_linter, Client_request;
  run_m; rewrite Hself; try destruct (rowcol _ _) as [? ?]; simpl;
  rewrite ?Hself, Hclient; simpl.

(** X11: every response that is false as a Python value (the empty
    dict, the empty list, the empty string, zero, [False], [None]) is
    taken as no response: [autocomplete] and [run_linter] return [None]
    without looking at any key. *)
Theorem falsy_response_gives_None
    self w o c response rest (location : nat) code settings filename :
  heap w !! self = Some o →
  client o = Some c →
  replies w = Reply response :: rest →
  truthy response = false →
  (∃ w', Worker.autocomplete self location w = Return VNone w'
         ∧ replies w' = rest)
  ∧ (∃ w', Worker.run_linter self code settings filename w
           = Return VNone w'
           ∧ replies w' = rest).
Proof.
  intros Hself Hclient Hreplies Hfalsy. run_request Hself Hclient.
  rewrite Hreplies, Hfalsy. split; by eexists.
Qed.

(** X12: a response that is true as a Python value but not of the
    expected shape makes the operation raise.  A non-empty dict without a
    [success] key raises [KeyError]; one whose [success] is [True] but
    that lacks the payload key ([completions], [errors]) raises [KeyError];
    a non-empty list, a non-empty string, a non-zero number or [True]
    raises [TypeError]. *)
Theorem malformed_response_raises
    self w o c response rest (location : nat) code settings filename :
  heap w !! self = Some o →
  client o = Some c →
  replies w = Reply response :: rest →
  truthy response = true →
  (∀ d, response = VDict d → d !! "success" = None →
     (∃ w', Worker.autocomplete self location w = Raise KeyError w')
     ∧ (∃ w', Worker.run_linter self code settings filename w
              = Raise KeyError w'))
  ∧ (∀ d, response = VDict d → d !! "success" = Some (VBool true) →
       (d !! "completions" = None →
        ∃ w', Worker.autocomplete self location w = Raise KeyError w')
       ∧ (d !! "errors" = None →
          ∃ w', Worker.run_linter self code settings filename w
                = Raise KeyError w'))
  ∧ ((∀ d, response ≠ VDict d) →
     (∃ w', Worker.autocomplete self location w = Raise TypeError w')
     ∧ (∃ w', Worker.run_linter self code settings filename w
              = Raise TypeError w')).
Proof.
  intros Hself Hclient Hreplies Htruthy. run_request Hself Hclient.
  rewrite Hreplies, Htruthy. simpl. split; [|split].
  - intros d -> Hmissing. simpl. rewrite Hmissing. split; by eexists.
  - intros d -> Hflag. simpl. rewrite Hflag. simpl.
    split; intros ->; by eexists.
  - intros Hshape. destruct response; simpl; try (split; by eexists).
    by edestruct Hshape.
Qed.

(** X13: the request [run_linter] sends is named [run_linter] and
    carries exactly the three values it was called with, under [code],
    [settings] and [filename]; it is the only outside call made. *)
Theorem run_linter_request self w o c code settings filename :
  heap w !! self = Some o →
  client o = Some c →
  ∃ data,
    trace (final (Worker.run_linter self code settings filename w))
    = trace w ++ [Request c "run_linter" data]
    ∧ data !! "code" = Some code
    ∧ data !! "settings" = Some settings
    ∧ data !! "filename" = Some filename
    ∧ dom data = {["code"; "settings"; "filename"]}.
Proof.
  intros Hself Hclient. run_request Hself Hclient.
  eexists. split.
  { destruct (replies w) as [|[r|e] rest]; simpl; [done| |done].
    destruct (truthy r); simpl; [|done].
    destruct (subscript r "success") as [flag|e]; simpl; [|done].
    destruct (is_True flag); simpl; [|done].
    by destruct (subscript r "errors"). }
  done.
Qed.

Lemma undisturbed_refl w : undisturbed w w.
Proof. by repeat split. Qed.

Lemma undisturbed_request w c method data :
  undisturbed w (log (Request c method data) w).
Proof.
  unfold undisturbed, spawned, terminated. simpl.
  rewrite !omap_app, !app_nil_r. by repeat split.
Qed.

Lemma undisturbed_reply w c method data rest :
  undisturbed w (set_replies rest (log (Request c method data) w)).
Proof.
  unfold undisturbed, spawned, terminated. simpl.
  rewrite !omap_app, !app_nil_r. by repeat split.
Qed.

(** X14: requests leave the Workers alone.  Whatever the backend
    answers and whether the call returns or raises, [autocomplete] and
    [run_linter] change no Worker object and no registry entry, allocate no
    port and start or terminate no process. *)
Theorem requests_change_no_worker
    self w (location : nat) code settings filename :
  undisturbed w (final (Worker.autocomplete self location w))
  ∧ undisturbed w
      (final (Worker.run_linter self code settings filename w)).
Proof.
  unfold Worker.autocomplete, Worker.run_linter, Client_request.
  run_m. split.
  - destruct (heap w !! self) as [o|] eqn:Hself; simpl;
      [|apply undisturbed_refl].
    destruct (rowcol _ _) as [row col]. simpl. rewrite Hself. simpl.
    destruct (client o) as [c|]; simpl; [|apply undisturbed_refl].
    destruct (replies w) as [|[r|e] rest]; simpl;
      auto using undisturbed_request, undisturbed_reply.
    destruct (truthy r); simpl; [|apply undisturbed_reply].
    destruct (subscript r "success") as [flag|e]; simpl;
      [|apply undisturbed_reply].
    destruct (is_True flag); simpl; [|apply undisturbed_reply].
    destruct (subscript r "completions"); apply undisturbed_reply.
  - destruct (heap w !! self) as [o|]; simpl;
      [|apply undisturbed_refl].
    destruct (client o) as [c|]; simpl; [|apply undisturbed_refl].
    destruct (replies w) as [|[r|e] rest]; simpl;
      auto using undisturbed_request, undisturbed_reply.
    destruct (truthy r); simpl; [|apply undisturbed_reply].
    destruct (subscript r "success") as [flag|e]; simpl;
      [|apply undisturbed_reply].
    destruct (is_True flag); simpl; [|apply undisturbed_reply].
    destruct (subscript r "errors"); apply undisturbed_reply.
Qed.

(** ** The lock *)

Section Lock.
Context `{Host}.

Lemma enter_discipline w views : lock_discipline (enter w views).
Proof.
  intros t. unfold in_body, enter. simpl. split; [done|].
  intros [v Hv]. rewrite list_lookup_fmap in Hv.
  by destruct (views !! t).
Qed.

Lemma step_keeps_discipline t c c' :
  lock_discipline c → step t c = Some c' → lock_discipline c'.
Proof.
  intros Hinv. unfold lock_discipline in *. unfold step.
  destruct (threads c !! t) as [[v p]|] eqn:Ht; [|done].
  assert (t < length (threads c)) as Hlt by by eapply lookup_lt_Some.
  destruct p; try done.
  - intros [= <-] t1. unfold in_body. simpl. rewrite Hinv.
    unfold in_body. split; intros [v1 Hv1].
    + exists v1. rewrite list_lookup_insert_ne; [done|congruence].
    + apply list_lookup_insert_Some in Hv1 as [(_ & Heq & _)|[_ Hv1]];
        [|by exists v1].
      by destruct (decide _).
  - destruct (WORKERS_LOCK c) as [owner|] eqn:Hlock; [done|].
    intros [= <-] t1. unfold in_body. simpl. split.
    + intros [= <-]. exists v. by apply list_lookup_insert_eq.
    + intros [v1 Hv1].
      apply list_lookup_insert_Some in Hv1 as [(-> & _)|[_ Hv1]]; [done|].
      assert (in_body c t1) as Hin by by exists v1.
      by apply Hinv in Hin.
  - assert (WORKERS_LOCK c = Some t) as Howner
      by (apply Hinv; by exists v).
    assert (∀ p', p' ≠ AtBody → ∀ w',
      lock_discipline {| world := w'; WORKERS_LOCK := None;
                         threads := <[t := (v, p')]> (threads c) |})
      as Hleave.
    { intros p' Hp' w' t1. unfold in_body. simpl. split; [done|].
      intros [v1 Hv1].
      apply list_lookup_insert_Some in Hv1 as [(_ & Heq & _)|[Hne Hv1]];
        [congruence|].
      assert (WORKERS_LOCK c = Some t1) as Howner1
        by (apply Hinv; by exists v1).
      congruence. }
    destruct (Worker.create_and_register v (world c)) as [[] w'|e w'];
      intros [= <-]; by apply Hleave.
  - intros [= <-] t1. unfold in_body. simpl. rewrite Hinv.
    unfold in_body. split; intros [v1 Hv1].
    + exists v1. rewrite list_lookup_insert_ne; [done|congruence].
    + apply list_lookup_insert_Some in Hv1 as [(_ & Heq & _)|[_ Hv1]];
        [|by exists v1].
      by destruct (WORKERS (world c) !! window_id (window v)).
Qed.

Lemma run_keeps_discipline schedule c c' :
  lock_discipline c → run schedule c = Some c' → lock_discipline c'.
Proof.
  revert c. induction schedule as [|t schedule IH]; intros c Hinv; simpl.
  - by intros [= <-].
  - destruct (step t c) as [c1|] eqn:Hstep; [|done].
    apply IH. by eapply step_keeps_discipline.
Qed.

(** X15: the lock does what a lock does.  However the threads that
    entered [lookup] are scheduled, a thread inside the statement under
    [with WORKERS_LOCK:] holds the lock and is the only thread there. *)
Theorem lock_admits_one_thread w views schedule c t v :
  run schedule (enter w views) = Some c →
  threads c !! t = Some (v, AtBody) →
  WORKERS_LOCK c = Some t
  ∧ ∀ t' v', threads c !! t' = Some (v', AtBody) → t' = t.
Proof.
  intros Hrun Ht.
  pose proof (run_keeps_discipline _ _ _ (enter_discipline w views) Hrun)
    as Hinv.
  assert (WORKERS_LOCK c = Some t) as Howner by (apply Hinv; by exists v).
  split; [done|]. intros t' v' Ht'.
  assert (WORKERS_LOCK c = Some t') as Howner' by (apply Hinv; by exists v').
  congruence.
Qed.

(** X16: the lock cannot wedge the lookups.  However the threads were
    scheduled so far, as long as one of them has not left [lookup] some
    thread can make its next move. *)
Theorem some_thread_can_move w views schedule c t v p :
  run schedule (enter w views) = Some c →
  threads c !! t = Some (v, p) →
  finished p = false →
  ∃ t', is_Some (step t' c).
Proof.
  intros Hrun Ht Hp.
  pose proof (run_keeps_discipline _ _ _ (enter_discipline w views) Hrun)
    as Hinv.
  assert (∀ t1 v1, threads c !! t1 = Some (v1, AtBody) →
            is_Some (step t1 c)) as Hbody.
  { intros t1 v1 Ht1. unfold step. rewrite Ht1.
    by destruct (Worker.create_and_register v1 (world c)). }
  destruct p; try done.
  - exists t. unfold step. by rewrite Ht.
  - destruct (WORKERS_LOCK c) as [owner|] eqn:Hlock.
    + destruct (proj1 (Hinv owner) Hlock) as [v1 Hv1].
      exists owner. by eapply Hbody.
    + exists t. unfold step. by rewrite Ht, Hlock.
  - exists t. by eapply Hbody.
  - exists t. unfold step. by rewrite Ht.
Qed.

End Lock.

(** ** The race, in general *)

Section Race.
Context `{Host}.

Lemma created_fields v p rest project_name w :
  WORKERS (created v p rest project_name w)
  = <[window_id (window v) := length (heap w)]> (WORKERS w)
  ∧ ephemeral (created v p rest project_name w) = rest
  ∧ length (heap (created v p rest project_name w)) = S (length (heap w))
  ∧ next_pid (created v p rest project_name w) = S (next_pid w)
  ∧ spawned (created v p rest project_name w)
    = spawned w ++ [{| pid := next_pid w |}]
  ∧ terminated (created v p rest project_name w) = terminated w.
Proof.
  unfold created, spawned, terminated. simpl.
  rewrite length_insert, length_app, !omap_app. simpl.
  rewrite !app_nil_r. repeat split; try done. lia.
Qed.






End Race.

(** ** From the editor's event to its answer *)

Lemma autocomplete_sends_position self w o c (location : nat) :
  heap w !! self = Some o →
  client o = Some c →
  ∃ data,
    trace (final (Worker.autocomplete self location w))
    = trace w ++ [Request c "autocomplete" data]
    ∧ data !! "source" = Some (VStr (text (buffer (view o))))
    ∧ data !! "line"
      = Some (VInt (line_number (text (buffer (view o))) location))
    ∧ data !! "offset"
      = Some (VInt (column_offset (text (buffer (view o))) location)).
Proof.
  intros Hself Hclient.
  unfold Worker.autocomplete, Client_request, substr, size_.
  run_m. rewrite Hself, rowcol_spec. simpl. rewrite Hself, Hclient. simpl.
  rewrite Nat.sub_0_r, substring_all.
  eexists. split.
  - destruct (replies w) as [|[r|e] rest]; simpl; [done| |done].
    destruct (truthy r); simpl; [|done].
    destruct (subscript r "success") as [flag|e]; simpl; [|done].
    destruct (is_True flag); simpl; [|done].
    by destruct (subscript r "completions").
  - unfold line_number, column_offset. by repeat split.
Qed.

Lemma autocomplete_reply self w o c response rest (location : nat) :
  heap w !! self = Some o →
  client o = Some c →
  replies w = Reply response :: rest →
  ∃ w1,
    Worker.autocomplete self location w
    = (if truthy response then
         success ← lift (subscript response "success");
         if is_True success then lift (subscript response "completions")
         else mret VNone
       else mret VNone) w1.
Proof.
  intros Hself Hclient Hreplies. run_request Hself Hclient.
  rewrite Hreplies. by eexists.
Qed.

Section Listening.
Context `{Host} `{Editor}.

(** With the window's Worker registered, the listener is [autocomplete]
    on that Worker at the head of [locations], and a choice on what came
    back; the choice touches nothing. *)
Lemma listener_calls_autocomplete view prefix location others w self :
  is_python view = true →
  WORKERS w !! window_id (window view) = Some self →
  AnacondaCompletionsListener.on_query_completions view prefix
    (location :: others) w
  = match Worker.autocomplete self location w with
    | Return proposals w1 =>
        Return
          (if truthy proposals then
             Flagged proposals
               (Z.lor INHIBIT_WORD_COMPLETIONS INHIBIT_EXPLICIT_COMPLETIONS)
           else Plain proposals)
          w1
    | Raise e w1 => Raise e w1
    end.
Proof.
  intros Hpython Hreg.
  unfold AnacondaCompletionsListener.on_query_completions, only_python.
  rewrite Hpython. unfold mbind at 1, M_bind at 1.
  rewrite (lookup_registered view w self Hreg).
  unfold index. simpl. unfold mbind at 1 2, M_bind at 1 2. simpl.
  destruct (Worker.autocomplete self location w) as [proposals w1|e w1];
    [|done].
  by destruct (truthy proposals).
Qed.

(** X18: what the editor gets for a completion query in a Python view
    whose window has a running Worker, whatever value the backend answers
    with.  One request is sent, on the Worker's client, and it is made for
    the first of the cursor locations: its [line] and [offset] are the line
    and the column of that location in the text of the Worker's view, and
    its [source] is that text.  From a response with [success] equal to
    [True], completions that are true as a Python value (a non-empty list)
    are handed on together with both inhibit flags, and completions that
    are not (the empty list) are handed on bare.  A response that is
    unsuccessful, or false as a Python value, gives a bare [None]. *)
Theorem completions_reach_the_editor
    v prefix location others w self o c response rest :
  is_python v = true →
  WORKERS w !! window_id (window v) = Some self →
  heap w !! self = Some o →
  client o = Some c →
  replies w = Reply response :: rest →
  (∃ data,
     trace (final (AnacondaCompletionsListener.on_query_completions
                     v prefix (location :: others) w))
     = trace w ++ [Request c "autocomplete" data]
     ∧ data !! "source" = Some (VStr (text (buffer (view o))))
     ∧ data !! "line"
       = Some (VInt (line_number (text (buffer (view o))) location))
     ∧ data !! "offset"
       = Some (VInt (column_offset (text (buffer (view o))) location)))
  ∧ (∀ d completions,
       response = VDict d →
       d !! "success" = Some (VBool true) →
       d !! "completions" = Some completions →
       (truthy completions = true →
        ∃ w',
          AnacondaCompletionsListener.on_query_completions v prefix
            (location :: others) w
          = Return
              (Flagged completions
                 (Z.lor INHIBIT_WORD_COMPLETIONS
                    INHIBIT_EXPLICIT_COMPLETIONS))
              w')
       ∧ (truthy completions = false →
          ∃ w',
            AnacondaCompletionsListener.on_query_completions v prefix
              (location :: others) w
            = Return (Plain completions) w'))
  ∧ (unsuccessful response ∨ truthy response = false →
     ∃ w',
       AnacondaCompletionsListener.on_query_completions v prefix
         (location :: others) w
       = Return (Plain VNone) w').
Proof.
  intros Hpython Hreg Hself Hclient Hreplies.
  rewrite (listener_calls_autocomplete v prefix location others w self
             Hpython Hreg).
  split; [|split].
  - destruct (autocomplete_sends_position self w o c location
                Hself Hclient) as (data & Htrace & Hdata).
    exists data. split; [|done]. rewrite <- Htrace.
    by destruct (Worker.autocomplete self location w).
  - intros d completions -> Hflag Hcompletions.
    destruct (autocomplete_reply self w o c (VDict d) rest location
                Hself Hclient Hreplies) as (w1 & ->).
    rewrite (truthy_dict d _ _ Hflag). run_m.
    rewrite Hflag. simpl. rewrite Hcompletions. simpl.
    split; intros ->; by eexists.
  - intros Hfail.
    destruct (autocomplete_reply self w o c response rest location
                Hself Hclient Hreplies) as (w1 & ->).
    destruct Hfail as [[->|(d & flag & -> & Hflag & Hne)] | Hfalsy].
    + by eexists.
    + rewrite (truthy_dict d _ _ Hflag). run_m.
      rewrite Hflag. simpl. rewrite (is_True_false _ Hne). simpl.
      by eexists.
    + rewrite Hfalsy. by eexists.
Qed.

(** X19: a completion query without a cursor location raises
    [IndexError], but not before the Worker is there.  In a Python view
    whose window has no Worker yet, the query with no locations builds and
    registers the Worker, spawns its backend, and then raises. *)
Theorem query_without_location_still_starts_worker
    view prefix w p rest project_name :
  is_python view = true →
  WORKERS w !! window_id (window view) = None →
  ephemeral w = p :: rest →
  Worker.generate_project_name (window view) = Ok project_name →
  executable (interpreter (window view)) = true →
  AnacondaCompletionsListener.on_query_completions view prefix [] w
  = Raise IndexError (created view p rest project_name w)
  ∧ WORKERS (created view p rest project_name w)
    !! window_id (window view) = Some (length (heap w))
  ∧ spawned (created view p rest project_name w)
    = spawned w ++ [{| pid := next_pid w |}].
Proof.
  intros Hpython Hnew Hports Hname Hexec.
  unfold AnacondaCompletionsListener.on_query_completions, only_python.
  rewrite Hpython. unfold mbind at 1, M_bind at 1.
  unfold Worker.lookup, gets. unfold mbind at 1 2, M_bind at 1 2.
  rewrite decide_True by done. unfold mbind at 1, M_bind at 1.
  rewrite (create_and_register_exact view w p rest project_name) by done.
  destruct (created_fields view p rest project_name w)
    as (Hreg & _ & _ & _ & Hspawned & _).
  remember (created view p rest project_name w) as w1 eqn:Hw1. clear Hw1.
  run_m. by rewrite Hreg, lookup_insert_eq.
Qed.

End Listening.

(** ** With nothing configured *)

Section Unconfigured.
Context `{Host}.

(** X20: with neither [python_interpreter] nor [extra_paths] configured
    the backend is run by [python], found on the path, with no [-e]
    argument: seven arguments in all.  The project name among them is the
    one [generate_project_name] derives for the window of the Worker's
    view; the port is the one the allocator handed out during this call,
    which is also the port the Worker is left with; the last argument is
    the editor's own process id.  Binding the port and spawning the backend
    are the only outside calls made. *)
Theorem unconfigured_command_line self w o child w' :
  heap w !! self = Some o →
  settings (active_view (window (view o))) !! "python_interpreter" = None →
  settings (active_view (window (view o))) !! "extra_paths" = None →
  Worker.start_worker self w = Return child w' →
  ∃ project_name p kwargs,
    Worker.generate_project_name (window (view o)) = Ok project_name
    ∧ ephemeral w = p :: ephemeral w'
    ∧ heap w' !! self = Some (set_port p o)
    ∧ trace w'
      = trace w
        ++ [Bind p;
            Spawn child
              ["python"; "-B"; entry_path; "-p"; project_name; str p;
               str os_getpid]
              kwargs].
Proof.
  intros Hself Hinterp Hextra Hrun.
  pose proof (start_worker_outcome w self o Hself) as Hout.
  rewrite Hrun in Hout.
  destruct Hout
    as (p & name & kw & Hports & Hname & _ & _ & Hheap & _ & _ & Htrace & _).
  exists name, p, kw. rewrite Htrace, Hheap, list_lookup_alter_eq, Hself.
  unfold interpreter, extra_paths, get_settings, command_line.
  rewrite Hinterp, Hextra. by repeat split.
Qed.

End Unconfigured.

(** ** The further statements, at the session *)

#[local] Existing Instance demo_editor.

(** The specification's project file. *)
Lemma project_name_is_one_component_witness :
  occurs "/" "proj" = false
  ∧ (is_Some (project_file_name project_window) →
     occurs "." "proj" = false).
Proof.
  apply (project_name_is_one_component project_window
           "/home/u/proj.sublime-project" "proj");
    vm_compute; reflexivity.
Defined.

(** [start_worker] on Worker 0 of the running session. *)
Lemma start_worker_spawn_kwargs_witness :
  ∃ args kwargs,
    last (trace (final (Worker.start_worker 0 (running []))))
    = Some (Spawn {| pid := 101 |} args kwargs)
    ∧ cwd kwargs = os_path_dirname (os_path_abspath __file__)
    ∧ bufsize kwargs = (-1)%Z
    ∧ (sublime_platform = "windows" →
       startupinfo kwargs = Some STARTF_USESHOWWINDOW)
    ∧ (sublime_platform ≠ "windows" → startupinfo kwargs = None).
Proof.
  apply (start_worker_spawn_kwargs 0 (running []) demo_worker
           {| pid := 101 |} (final (Worker.start_worker 0 (running []))));
    vm_compute; reflexivity.
Defined.

(** The interpreter setting went bad after the Worker was started. *)
Lemma failed_restart_rebinds_port_witness :
  ∃ e w' o',
    Worker.restart 0 stale = Raise e w'
    ∧ heap w' !! 0 = Some o'
    ∧ port o' = Bound 50002%Z
    ∧ client o' = client stale_worker
    ∧ proccess o' = proccess stale_worker
    ∧ ephemeral w' = [50003%Z]
    ∧ spawned w' = spawned stale
    ∧ WORKERS w' = WORKERS stale.
Proof.
  apply (failed_restart_rebinds_port 0 stale stale_worker 50002 [50003%Z]);
    [vm_compute; reflexivity..|].
  right. vm_compute. reflexivity.
Defined.

(** Two windows, two Workers: operating on the first leaves the second. *)
Lemma lifecycle_touches_one_worker_witness :
  heap (final (Worker.restart 0 two_windows)) !! 1 = heap two_windows !! 1
  ∧ heap (final (Worker.stop 0 two_windows)) !! 1 = heap two_windows !! 1
  ∧ WORKERS (final (Worker.restart 0 two_windows)) = WORKERS two_windows
  ∧ WORKERS (final (Worker.stop 0 two_windows)) = WORKERS two_windows.
Proof.
  apply (lifecycle_touches_one_worker 0 1 two_windows demo_worker);
    [vm_compute; reflexivity|discriminate].
Defined.

(** A lookup from another file of the demo window. *)
Lemma lookup_again_returns_same_worker_witness :
  Worker.lookup other_view (running []) = Return 0 (running []).
Proof.
  apply (lookup_again_returns_same_worker demo_view other_view (boot []));
    vm_compute; reflexivity.
Defined.

Lemma worker_serves_its_first_view_witness :
  ∃ c data,
    Worker.lookup other_view (running []) = Return 0 (running [])
    ∧ trace (final (Worker.autocomplete 0 3 (running [])))
      = trace (running []) ++ [Request c "autocomplete" data]
    ∧ data !! "source" = Some (VStr (text (buffer demo_view))).
Proof.
  apply (worker_serves_its_first_view demo_view other_view (boot []) 0
           (running []) 3);
    vm_compute; reflexivity.
Defined.

(** The running session, stopped. *)
Lemma stopped_worker_stays_registered_witness :
  ∃ w1,
    Worker.stop 0 (running []) = Return tt w1
    ∧ Worker.lookup demo_view w1 = Return 0 w1
    ∧ (∀ location : nat,
         Worker.autocomplete 0 location w1 = Raise AttributeError w1)
    ∧ (∀ code settings filename,
         Worker.run_linter 0 code settings filename w1
         = Raise AttributeError w1).
Proof.
  apply (stopped_worker_stays_registered demo_view 0 (running [])
           demo_worker);
    vm_compute; reflexivity.
Defined.

(** A backend that answers with an empty object. *)
Lemma falsy_response_gives_None_witness :
  (∃ w', Worker.autocomplete 0 13 (running [Reply (VDict ∅)])
         = Return VNone w'
         ∧ replies w' = [])
  ∧ (∃ w', Worker.run_linter 0 (VStr "x=1") (VDict ∅) (VStr "a.py")
             (running [Reply (VDict ∅)])
           = Return VNone w'
           ∧ replies w' = []).
Proof.
  apply (falsy_response_gives_None 0 (running [Reply (VDict ∅)])
           demo_worker {| host := "localhost"; cport := 50001 |}
           (VDict ∅) []);
    vm_compute; reflexivity.
Defined.

(** A backend that answers with a list instead of an object. *)
Lemma malformed_response_raises_witness :
  (∃ w', Worker.autocomplete 0 13 (running [Reply (VList [VStr "oops"])])
         = Raise TypeError w')
  ∧ (∃ w', Worker.run_linter 0 (VStr "x=1") (VDict ∅) (VStr "a.py")
             (running [Reply (VList [VStr "oops"])])
           = Raise TypeError w').
Proof.
  refine (proj2 (proj2
    (malformed_response_raises 0 (running [Reply (VList [VStr "oops"])])
       demo_worker {| host := "localhost"; cport := 50001 |}
       (VList [VStr "oops"]) [] 13 (VStr "x=1") (VDict ∅) (VStr "a.py")
       _ _ _ _)) _);
    [vm_compute; reflexivity..|discriminate].
Defined.

(** The specification's linter example. *)
Lemma run_linter_request_witness :
  ∃ data,
    trace (final (Worker.run_linter 0 (VStr "x=1") (VDict ∅) (VStr "a.py")
                    (running [])))
    = trace (running [])
      ++ [Request {| host := "localhost"; cport := 50001 |}
            "run_linter" data]
    ∧ data !! "code" = Some (VStr "x=1")
    ∧ data !! "settings" = Some (VDict ∅)
    ∧ data !! "filename" = Some (VStr "a.py")
    ∧ dom data = {["code"; "settings"; "filename"]}.
Proof.
  apply (run_linter_request 0 (running []) demo_worker
           {| host := "localhost"; cport := 50001 |});
    vm_compute; reflexivity.
Defined.

(** Thread 0 is inside the locked statement, thread 1 waits. *)
Lemma lock_admits_one_thread_witness :
  WORKERS_LOCK mid_race = Some 0
  ∧ ∀ t' v', threads mid_race !! t' = Some (v', AtBody) → t' = 0.
Proof.
  apply (lock_admits_one_thread (boot []) [demo_view; demo_view]
           [0; 1; 0] mid_race 0 demo_view);
    vm_compute; reflexivity.
Defined.

Lemma some_thread_can_move_witness :
  ∃ t', is_Some (step t' mid_race).
Proof.
  apply (some_thread_can_move (boot []) [demo_view; demo_view]
           [0; 1; 0] mid_race 1 demo_view AtAcquire);
    vm_compute; reflexivity.
Defined.


(** The specification's completion example, from the editor's side. *)
Lemma completions_reach_the_editor_witness :
  (∃ data,
     trace (final (AnacondaCompletionsListener.on_query_completions
                     demo_view "os." [13; 0]
                     (running [Reply completions_reply])))
     = trace (running [Reply completions_reply])
       ++ [Request {| host := "localhost"; cport := 50001 |}
             "autocomplete" data]
     ∧ data !! "source" = Some (VStr (text (buffer (view demo_worker))))
     ∧ data !! "line"
       = Some (VInt (line_number (text (buffer (view demo_worker))) 13))
     ∧ data !! "offset"
       = Some (VInt (column_offset (text (buffer (view demo_worker))) 13)))
  ∧ ∃ w',
      AnacondaCompletionsListener.on_query_completions demo_view "os."
        [13; 0] (running [Reply completions_reply])
      = Return
          (Flagged (VList [VStr "path"; VStr "getcwd"])
             (Z.lor INHIBIT_WORD_COMPLETIONS INHIBIT_EXPLICIT_COMPLETIONS))
          w'.
Proof.
  split.
  - refine (proj1
      (completions_reach_the_editor demo_view "os." 13 [0]
         (running [Reply completions_reply]) 0 demo_worker
         {| host := "localhost"; cport := 50001 |}
         completions_reply [] _ _ _ _ _));
      vm_compute; reflexivity.
  - refine (proj1
      (proj1
         (proj2
            (completions_reach_the_editor demo_view "os." 13 [0]
               (running [Reply completions_reply]) 0 demo_worker
               {| host := "localhost"; cport := 50001 |}
               completions_reply [] _ _ _ _ _))
         (<["success" := VBool true]>
          (<["completions" := VList [VStr "path"; VStr "getcwd"]]> ∅))
         (VList [VStr "path"; VStr "getcwd"]) _ _ _)
      _);
      vm_compute; reflexivity.
Defined.

(** A query without locations in the fresh editor. *)
Lemma query_without_location_still_starts_worker_witness :
  AnacondaCompletionsListener.on_query_completions demo_view "" []
    (boot [])
  = Raise IndexError
      (created demo_view 50001 [50002%Z; 50003%Z] "proj" (boot []))
  ∧ WORKERS (created demo_view 50001 [50002%Z; 50003%Z] "proj" (boot []))
    !! window_id (window demo_view) = Some (length (heap (boot [])))
  ∧ spawned (created demo_view 50001 [50002%Z; 50003%Z] "proj" (boot []))
    = spawned (boot []) ++ [{| pid := next_pid (boot []) |}].
Proof.
  apply (query_without_location_still_starts_worker demo_view "" (boot [])
           50001 [50002%Z; 50003%Z] "proj");
    vm_compute; reflexivity.
Defined.

(** A Worker for a window where nothing is configured. *)
Lemma unconfigured_command_line_witness :
  ∃ project_name p kwargs,
    Worker.generate_project_name (window (view (fresh plain_view)))
    = Ok project_name
    ∧ ephemeral idle = p :: ephemeral (final (Worker.start_worker 0 idle))
    ∧ heap (final (Worker.start_worker 0 idle)) !! 0
      = Some (set_port p (fresh plain_view))
    ∧ trace (final (Worker.start_worker 0 idle))
      = trace idle
        ++ [Bind p;
            Spawn {| pid := 7 |}
              ["python"; "-B"; entry_path; "-p"; project_name; str p;
               str os_getpid]
              kwargs].
Proof.
  apply (unconfigured_command_line 0 idle (fresh plain_view)
           {| pid := 7 |} (final (Worker.start_worker 0 idle)));
    vm_compute; reflexivity.
Defined.

(** Two stops in the running session. *)
Lemma stop_twice_outcome_witness :
  ∃ w',
    (Worker.stop 0;; Worker.stop 0) (running []) = Return tt w'
    ∧ terminated w'
      = terminated (running []) ++ [{| pid := 100 |}; {| pid := 100 |}].
Proof.
  apply (stop_twice_outcome (running []) 0 demo_worker {| pid := 100 |});
    vm_compute; reflexivity.
Defined.

(** A restart in the running session. *)
Lemma restart_tears_nothing_down_witness :
  terminated (final (Worker.restart 0 (running [])))
  = terminated (running [])
  ∧ live (final (Worker.restart 0 (running [])))
    = live (running []) ∪ {[next_pid (running [])]}
  ∧ spawned (final (Worker.restart 0 (running [])))
    = spawned (running []) ++ [{| pid := next_pid (running []) |}].
Proof.
  apply (restart_tears_nothing_down (running []) 0 demo_worker
           (final (Worker.restart 0 (running []))));
    vm_compute; reflexivity.
Defined.
